(** * Character-device layer of the XDMA2 scatter-gather DMA driver

    A shallow embedding of the file operations of the SG DMA character
    device (read, write, ioctl, open, release) and the proofs of the
    properties of its exclusivity protocol, its error paths and its
    position cursor.

    Kernel integers are [Z]; where the C code converts between widths the
    wrap-around is written out ([to_int], [to_loff_t]).  The engine flags
    word is a [Z] handled with [Z.testbit], [Z.setbit] and [Z.clearbit].
    User memory is a finite map from user addresses to cells; every access
    that the driver makes through [get_user], [__get_user], [put_user] and
    [__put_user] is an access to one cell.  The routines that live outside
    this translation unit (descriptor submission, the performance run,
    bulk copies, the kernel's file helpers) are the fields of the class
    [Collaborators]; every theorem holds for all of them. *)

From Stdlib Require Import ZArith Lia Bool.
From stdpp Require Import base option gmap.

Local Open Scope Z_scope.

(** ** Error numbers and file constants of the kernel *)

Definition EACCES : Z := 13.
Definition EFAULT : Z := 14.
Definition EBUSY : Z := 16.
Definition ENODEV : Z := 19.
Definition ENOTTY : Z := 25.
Definition ENOTSUPP : Z := 524.

Definition O_ACCMODE : Z := 3.
Definition O_RDONLY : Z := 0.
Definition O_WRONLY : Z := 1.
Definition O_TRUNC : Z := 512.      (* 00001000 octal *)
Definition FMODE_READ : Z := 1.
Definition FMODE_WRITE : Z := 2.

(** ** Fixed-width conversions *)

Definition wrap_signed (w z : Z) : Z :=
  (z + 2 ^ (w - 1)) mod 2 ^ w - 2 ^ (w - 1).

Definition to_int (z : Z) : Z := wrap_signed 32 z.       (* (int) z *)
Definition to_loff_t (z : Z) : Z := wrap_signed 64 z.    (* loff_t arithmetic *)

Definition INT_MAX : Z := 2 ^ 31 - 1.
Definition INT_MIN : Z := - 2 ^ 31.
Definition LLONG_MAX : Z := 2 ^ 63 - 1.
Definition LLONG_MIN : Z := - 2 ^ 63.

(** ** Reading one bit of a flags word *)

Definition test_bit (nr w : Z) : bool := Z.testbit w nr.

(** ** Data model *)

(** [enum dma_data_direction] of the kernel. *)
Inductive dma_data_direction : Type :=
  | DMA_BIDIRECTIONAL
  | DMA_TO_DEVICE
  | DMA_FROM_DEVICE
  | DMA_NONE.

Definition dir_eqb (a b : dma_data_direction) : bool :=
  match a, b with
  | DMA_BIDIRECTIONAL, DMA_BIDIRECTIONAL
  | DMA_TO_DEVICE, DMA_TO_DEVICE
  | DMA_FROM_DEVICE, DMA_FROM_DEVICE
  | DMA_NONE, DMA_NONE => true
  | _, _ => false
  end.

(** The parameters staged for the next submission.  The direction stamp
    exists only in debug builds and is left out. *)
Record xdma2_transfer_params : Type := mk_params {
  tp_buf : Z;        (* user pointer; 0 is NULL *)
  tp_length : Z;
  tp_ep_addr : Z
}.

(** One cell of user memory: a value and whether the page is writable.
    An address with no cell faults on every access. *)
Record ucell : Type := mk_ucell {
  writable : bool;
  contents : Z
}.

Record xdma2_cdev : Type := mk_cdev {
  magic : Z
}.

Record inode : Type := mk_inode {
  i_cdev : xdma2_cdev
}.

Record file : Type := mk_file {
  f_flags : Z;
  f_mode : Z;
  private_data : option xdma2_cdev
}.

Definition with_f_mode (filp : file) (m : Z) : file :=
  {| f_flags := f_flags filp; f_mode := m; private_data := private_data filp |}.

Definition with_private_data (filp : file) (x : xdma2_cdev) : file :=
  {| f_flags := f_flags filp; f_mode := f_mode filp; private_data := Some x |}.

Section Driver.

(** [struct xdma2_performance_ioctl] is opaque to this layer. *)
Context {xdma2_performance_ioctl : Type}.

Record xdma2_engine : Type := mk_engine {
  flags : Z;
  dir : dma_data_direction;
  streaming : bool;
  non_incr_addr : bool;
  eop_flush : bool;
  addr_align : Z;
  transfer_params : xdma2_transfer_params;
  xdma2_perf : xdma2_performance_ioctl
}.

Definition with_flags (e : xdma2_engine) (w : Z) : xdma2_engine :=
  {| flags := w; dir := dir e; streaming := streaming e;
     non_incr_addr := non_incr_addr e; eop_flush := eop_flush e;
     addr_align := addr_align e; transfer_params := transfer_params e;
     xdma2_perf := xdma2_perf e |}.

Definition with_non_incr_addr (e : xdma2_engine) (b : bool) : xdma2_engine :=
  {| flags := flags e; dir := dir e; streaming := streaming e;
     non_incr_addr := b; eop_flush := eop_flush e;
     addr_align := addr_align e; transfer_params := transfer_params e;
     xdma2_perf := xdma2_perf e |}.

Definition with_eop_flush (e : xdma2_engine) (b : bool) : xdma2_engine :=
  {| flags := flags e; dir := dir e; streaming := streaming e;
     non_incr_addr := non_incr_addr e; eop_flush := b;
     addr_align := addr_align e; transfer_params := transfer_params e;
     xdma2_perf := xdma2_perf e |}.

Definition with_transfer_params (e : xdma2_engine) (p : xdma2_transfer_params)
  : xdma2_engine :=
  {| flags := flags e; dir := dir e; streaming := streaming e;
     non_incr_addr := non_incr_addr e; eop_flush := eop_flush e;
     addr_align := addr_align e; transfer_params := p;
     xdma2_perf := xdma2_perf e |}.

Definition with_xdma2_perf (e : xdma2_engine) (p : xdma2_performance_ioctl)
  : xdma2_engine :=
  {| flags := flags e; dir := dir e; streaming := streaming e;
     non_incr_addr := non_incr_addr e; eop_flush := eop_flush e;
     addr_align := addr_align e; transfer_params := transfer_params e;
     xdma2_perf := p |}.

(** The store the file operations work on: the engine the device node is
    bound to (every [xcdev->engine] of the source points to it) and the
    memory of the calling process. *)
Record kstate : Type := mk_kstate {
  k_engine : xdma2_engine;
  k_umem : gmap Z ucell
}.

(** ** The state monad of the handlers *)

Definition kern (A : Type) : Type := kstate -> A * kstate.

Definition ret {A : Type} (a : A) : kern A := fun s => (a, s).

Definition bind {A B : Type} (m : kern A) (k : A -> kern B) : kern B :=
  fun s => let (a, s') := m s in k a s'.

Definition get_engine : kern xdma2_engine := fun s => (k_engine s, s).

Definition modify_engine (f : xdma2_engine -> xdma2_engine) : kern unit :=
  fun s => (tt, {| k_engine := f (k_engine s); k_umem := k_umem s |}).

End Driver.

Arguments xdma2_engine : clear implicits.
Arguments kstate : clear implicits.
Arguments kern : clear implicits.

(** The handlers are written with stdpp's monad notations:
    [x ← m; k], ['(x, y) ← m; k] and [m;; k]. *)
#[global] Instance kern_ret {perf : Type} : MRet (kern perf) :=
  fun A a => ret a.
#[global] Instance kern_bind {perf : Type} : MBind (kern perf) :=
  fun A B k m => bind m k.

(** ** Collaborators

    Everything the handlers call or use that is defined outside this
    translation unit.  Constants and structure layouts come from headers;
    the functions are the descriptor machinery and kernel helpers.
    - [copy_from_user] and [copy_to_user] follow the kernel prototype:
      the result is the number of bytes that could NOT be copied, an
      unsigned quantity, together with the destination as the copy left it.
    - [xdma2_xfer_submit] and [xdma2_performance_submit] receive the engine
      by pointer and perform DMA: they are arbitrary transformers of the
      store that also yield a result.
    - [debug_asserts] tells whether the debug assertion macros are compiled
      in; a failed assertion then returns its last argument. *)
Class Collaborators (perf : Type) : Type := {
  XENGINE_BUSY_BIT : Z;
  XENGINE_OPEN_BIT : Z;
  XDMA_H2C : Z;
  XDMA_C2H : Z;
  sizeof_transfer_request : Z;
  off_mode : Z;
  off_buf : Z;
  off_length : Z;
  off_axi_address : Z;
  XDMA2_IOCTL_PERF_TEST : Z;
  XDMA2_IOCTL_ADDRMODE_SET : Z;
  XDMA2_IOCTL_ADDRMODE_GET : Z;
  XDMA2_IOCTL_ALIGN_GET : Z;
  XDMA2_IOCTL_SUBMIT_TRANSFER : Z;
  debug_asserts : bool;
  access_ok : Z -> Z -> bool;
  access_assert : Z -> Z -> Z;
  copy_from_user : gmap Z ucell -> Z -> perf -> N * perf;
  copy_to_user : gmap Z ucell -> Z -> perf -> N * gmap Z ucell;
  xdma2_xfer_submit : kern perf Z;
  xdma2_performance_submit : kern perf Z;
  xcdev_check : option xdma2_cdev -> Z;
  generic_file_open : inode -> file -> Z;
  stream_open : inode -> file -> file;
  char_llseek : file -> Z -> Z -> Z * file
}.

Section Handlers.

Context {perf : Type} {K : Collaborators perf}.

(** ** Primitive actions *)

(** [test_and_set_bit(nr, &engine->flags)]: yields the old bit. *)
Definition test_and_set_bit (nr : Z) : kern perf bool :=
  fun s =>
    let e := k_engine s in
    (Z.testbit (flags e) nr,
     {| k_engine := with_flags e (Z.setbit (flags e) nr); k_umem := k_umem s |}).

(** [clear_bit(nr, &engine->flags)]. *)
Definition clear_bit (nr : Z) : kern perf unit :=
  modify_engine (fun e => with_flags e (Z.clearbit (flags e) nr)).

(** [__get_user(x, ptr)]: the result code and the value left in [x], which
    is zero when the access faults. *)
Definition __get_user (ptr : Z) : kern perf (Z * Z) :=
  fun s =>
    match k_umem s !! ptr with
    | Some c => ((0, contents c), s)
    | None => ((- EFAULT, 0), s)
    end.

(** [__put_user(v, ptr)]. *)
Definition __put_user (v ptr : Z) : kern perf Z :=
  fun s =>
    match k_umem s !! ptr with
    | Some c =>
        if writable c
        then (0, {| k_engine := k_engine s;
                    k_umem := <[ptr := mk_ucell true v]> (k_umem s) |})
        else (- EFAULT, s)
    | None => (- EFAULT, s)
    end.

(** [get_user] and [put_user] check the address range themselves; the
    objects transferred by this driver through them are [int]s. *)
Definition get_user (ptr : Z) : kern perf (Z * Z) :=
  fun s => if access_ok ptr 4 then __get_user ptr s else ((- EFAULT, 0), s).

Definition put_user (v ptr : Z) : kern perf Z :=
  fun s => if access_ok ptr 4 then __put_user v ptr s else (- EFAULT, s).

(** [copy_from_user(&engine->xdma2_perf, arg, sizeof ...)], assigned to an
    [int]. *)
Definition copy_perf_from_user (arg : Z) : kern perf Z :=
  fun s =>
    let (n, p) := copy_from_user (k_umem s) arg (xdma2_perf (k_engine s)) in
    (to_int (Z.of_N n),
     {| k_engine := with_xdma2_perf (k_engine s) p; k_umem := k_umem s |}).

(** [copy_to_user(arg, &engine->xdma2_perf, sizeof ...)], assigned to an
    [int]. *)
Definition copy_perf_to_user (arg : Z) : kern perf Z :=
  fun s =>
    let (n, um) := copy_to_user (k_umem s) arg (xdma2_perf (k_engine s)) in
    (to_int (Z.of_N n), {| k_engine := k_engine s; k_umem := um |}).

Definition set_tp_buf (v : Z) (e : xdma2_engine perf) : xdma2_engine perf :=
  with_transfer_params e
    {| tp_buf := v; tp_length := tp_length (transfer_params e);
       tp_ep_addr := tp_ep_addr (transfer_params e) |}.

Definition set_tp_length (v : Z) (e : xdma2_engine perf) : xdma2_engine perf :=
  with_transfer_params e
    {| tp_buf := tp_buf (transfer_params e); tp_length := v;
       tp_ep_addr := tp_ep_addr (transfer_params e) |}.

Definition set_tp_ep_addr (v : Z) (e : xdma2_engine perf) : xdma2_engine perf :=
  with_transfer_params e
    {| tp_buf := tp_buf (transfer_params e);
       tp_length := tp_length (transfer_params e); tp_ep_addr := v |}.

(** Modelled from the spec: [engine_addrmode_set] is defined in the engine
    library, outside this unit; the specification says that the address-mode
    command assigns the boolean to nonIncrementingAddress, and that open
    sets nonIncrementingAddress from the truncate signal. *)
Definition engine_addrmode_set (set : bool) : kern perf unit :=
  modify_engine (fun e => with_non_incr_addr e set).

(** ** Byte-stream path *)

(** [char_sgdma_read_write(filp, buf, count, pos)]; the second component of
    the result is [*pos] at return. *)
Definition char_sgdma_read_write (filp : file) (buf count pos : Z)
  : kern perf (Z * Z) :=
  (* guard against attempts for simultaneous transfer *)
  busy ← test_and_set_bit XENGINE_BUSY_BIT;
  if busy : bool then ret (- EBUSY, pos) else
  (* just fill transfer params *)
  modify_engine (set_tp_buf buf);;
  modify_engine (set_tp_length count);;
  engine ← get_engine;
  (if negb (streaming engine)
   then modify_engine (set_tp_ep_addr pos)
   else ret tt);;
  rv ← xdma2_xfer_submit;
  engine ← get_engine;
  let pos :=
    if negb (streaming engine) && negb (non_incr_addr engine) && (0 <? rv)
    then to_loff_t (pos + rv)
    else pos in
  clear_bit XENGINE_BUSY_BIT;;
  ret (rv, pos).

Definition char_sgdma_read (filp : file) (buf count pos : Z)
  : kern perf (Z * Z) :=
  char_sgdma_read_write filp buf count pos.

(** ** Command interface

    The pointer assertions at the head of some handlers are void here: the
    engine of the store always exists. *)

Definition ioctl_do_perf_test (arg : Z) : kern perf Z :=
  busy ← test_and_set_bit XENGINE_BUSY_BIT;
  if busy : bool then ret (- EBUSY) else
  let exit (rv : Z) := (clear_bit XENGINE_BUSY_BIT;; ret rv) in
  rv ← copy_perf_from_user arg;
  if rv <? 0 then exit rv else
  rv ← xdma2_performance_submit;
  if rv <? 0 then exit rv else
  rv ← copy_perf_to_user arg;
  exit rv.

Definition ioctl_do_addrmode_set (arg : Z) : kern perf Z :=
  '(rv, set) ← get_user arg;
  if rv <? 0 then ret rv else
  busy ← test_and_set_bit XENGINE_BUSY_BIT;
  if busy : bool then ret (- EBUSY) else
  engine_addrmode_set (negb (set =? 0));;
  clear_bit XENGINE_BUSY_BIT;;
  ret 0.

Definition ioctl_do_addrmode_get (arg : Z) : kern perf Z :=
  engine ← get_engine;
  let src := non_incr_addr engine in
  rv ← put_user (Z.b2z src) arg;
  ret rv.

Definition ioctl_do_align_get (arg : Z) : kern perf Z :=
  engine ← get_engine;
  put_user (addr_align engine) arg.

(** The end of [ioctl_do_submit_transfer], from the call of
    [xdma2_xfer_submit] to the label [exit]. *)
Definition submit_and_report (user_transfer_request : Z) : kern perf Z :=
  let exit (rv : Z) := (clear_bit XENGINE_BUSY_BIT;; ret rv) in
  transfer_res ← xdma2_xfer_submit;
  if transfer_res <? 0 then
    rv ← __put_user 0 (user_transfer_request + off_length);
    if rv <? 0 then exit rv else
    exit (to_int transfer_res)
  else
    rv ← __put_user transfer_res (user_transfer_request + off_length);
    if rv <? 0 then exit rv else
    exit 0.

Definition ioctl_do_submit_transfer (arg : Z) : kern perf Z :=
  let user_transfer_request := arg in
  let rv := access_assert user_transfer_request sizeof_transfer_request in
  if rv <? 0 then ret rv else
  '(rv, transfer_mode) ← __get_user (user_transfer_request + off_mode);
  if rv <? 0 then ret rv else
  engine ← get_engine;
  (* to verify user intention, otherwise not really necessary *)
  if negb ((transfer_mode =? XDMA_H2C) && dir_eqb (dir engine) DMA_TO_DEVICE)
     && negb ((transfer_mode =? XDMA_C2H) && dir_eqb (dir engine) DMA_FROM_DEVICE)
  then ret (- ENOTSUPP) else
  busy ← test_and_set_bit XENGINE_BUSY_BIT;
  if busy : bool then ret (- EBUSY) else
  let exit (rv : Z) := (clear_bit XENGINE_BUSY_BIT;; ret rv) in
  (* we already checked the access *)
  '(rv, v) ← __get_user (user_transfer_request + off_buf);
  modify_engine (set_tp_buf v);;
  if rv <? 0 then exit rv else
  '(rv, v) ← __get_user (user_transfer_request + off_length);
  modify_engine (set_tp_length v);;
  if rv <? 0 then exit rv else
  engine ← get_engine;
  let rv := access_assert (tp_buf (transfer_params engine))
                          (tp_length (transfer_params engine)) in
  if rv <? 0 then
    modify_engine (set_tp_buf 0);;
    modify_engine (set_tp_length 0);;
    exit rv
  else
  if negb (streaming engine) then
    '(rv, v) ← __get_user (user_transfer_request + off_axi_address);
    modify_engine (set_tp_ep_addr v);;
    if rv <? 0 then exit rv else
    submit_and_report user_transfer_request
  else
    submit_and_report user_transfer_request.

Definition char_sgdma_ioctl (filp : file) (cmd arg : Z) : kern perf Z :=
  let xcdev := private_data filp in
  let rv := xcdev_check xcdev in
  if rv <? 0 then ret rv else
  if cmd =? XDMA2_IOCTL_PERF_TEST then ioctl_do_perf_test arg
  else if cmd =? XDMA2_IOCTL_ADDRMODE_SET then ioctl_do_addrmode_set arg
  else if cmd =? XDMA2_IOCTL_ADDRMODE_GET then ioctl_do_addrmode_get arg
  else if cmd =? XDMA2_IOCTL_ALIGN_GET then ioctl_do_align_get arg
  else if cmd =? XDMA2_IOCTL_SUBMIT_TRANSFER then ioctl_do_submit_transfer arg
  else ret (- ENOTTY).

(** ** Device node lifecycle *)

(** Modelled from the spec: [char_open] is defined with the generic
    character-device code, outside this unit; a device node is bound one to
    one to its engine, so opening stores the node's character device in the
    file and changes nothing else. *)
Definition char_open (inode : inode) (filp : file) : file :=
  with_private_data filp (i_cdev inode).

(** [char_sgdma_open(inode, filp)]; the second component of the result is
    [*filp] at return. *)
Definition char_sgdma_open (inode : inode) (filp : file)
  : kern perf (Z * file) :=
  let ret_val := 0 in
  let filp := char_open inode filp in
  (* don't allow to open the engine more than once *)
  opened ← test_and_set_bit XENGINE_OPEN_BIT;
  if opened : bool then ret (- EBUSY, filp) else
  engine ← get_engine;
  (* Should never ever happen otherwise something went horribly wrong *)
  if debug_asserts
     && negb (dir_eqb (dir engine) DMA_TO_DEVICE
              || dir_eqb (dir engine) DMA_FROM_DEVICE)
  then ret (- ENODEV, filp) else
  let not_open (ret_val : Z) (filp : file) : kern perf (Z * file) :=
    (* clear busy bit again, if file can't be allowed to open *)
    (if ret_val <? 0 then clear_bit XENGINE_OPEN_BIT else ret tt);;
    ret (ret_val, filp) in
  let opening (filp : file) : kern perf (Z * file) :=
    if streaming engine then
      (* Mark dev file as streaming device *)
      let filp := stream_open inode filp in
      modify_engine
        (fun e => with_eop_flush e (negb (Z.land (f_flags filp) O_TRUNC =? 0)));;
      not_open ret_val filp
    else
      (* MM DMA engine *)
      let ret_val := generic_file_open inode filp in
      if ret_val <? 0 then not_open ret_val filp else
      engine_addrmode_set (negb (Z.land (f_flags filp) O_TRUNC =? 0));;
      not_open ret_val filp in
  (* make sure that file access mode matches direction of engine and
     otherwise deny access *)
  if dir_eqb (dir engine) DMA_TO_DEVICE then
    if negb (Z.land (f_flags filp) O_ACCMODE =? O_WRONLY)
    then not_open (- EACCES) filp
    else opening (with_f_mode filp (Z.land (f_mode filp) (Z.lnot FMODE_READ)))
  else
    if negb (Z.land (f_flags filp) O_ACCMODE =? O_RDONLY)
    then not_open (- EACCES) filp
    else opening (with_f_mode filp (Z.land (f_mode filp) (Z.lnot FMODE_WRITE))).

Definition char_sgdma_close (inode : inode) (filp : file) : kern perf Z :=
  let xcdev := private_data filp in
  let rv := xcdev_check xcdev in
  if rv <? 0 then ret rv else
  clear_bit XENGINE_OPEN_BIT;;
  ret 0.

Record file_operations : Type := mk_fops {
  open : inode -> file -> kern perf (Z * file);
  release : inode -> file -> kern perf Z;
  write : file -> Z -> Z -> Z -> kern perf (Z * Z);
  read : file -> Z -> Z -> Z -> kern perf (Z * Z);
  unlocked_ioctl : file -> Z -> Z -> kern perf Z;
  llseek : file -> Z -> Z -> Z * file
}.

Definition sgdma_fops : file_operations := {|
  open := char_sgdma_open;
  release := char_sgdma_close;
  write := char_sgdma_read_write;
  read := char_sgdma_read;
  unlocked_ioctl := char_sgdma_ioctl;
  llseek := char_llseek
|}.

End Handlers.

(** ** Vocabulary of the properties *)

Section Vocabulary.

Context {perf : Type} {K : Collaborators perf}.

Definition busy (s : kstate perf) : bool :=
  test_bit XENGINE_BUSY_BIT (flags (k_engine s)).

Definition is_open (s : kstate perf) : bool :=
  test_bit XENGINE_OPEN_BIT (flags (k_engine s)).

(** The submission routine leaves the engine's transfer mode alone:
    [streaming] is fixed when the engine is created and [non_incr_addr]
    changes only through the address-mode command and open. *)
Definition xfer_submit_keeps_mode : Prop :=
  forall s : kstate perf,
    streaming (k_engine (xdma2_xfer_submit s).2) = streaming (k_engine s) /\
    non_incr_addr (k_engine (xdma2_xfer_submit s).2) = non_incr_addr (k_engine s).

(** The store handed to the submission routine by a byte-stream transfer. *)
Definition stage_read_write (buf count pos : Z) (s : kstate perf) : kstate perf :=
  let e := set_tp_length count (set_tp_buf buf
             (with_flags (k_engine s)
                (Z.setbit (flags (k_engine s)) XENGINE_BUSY_BIT))) in
  {| k_engine := if streaming e then e else set_tp_ep_addr pos e;
     k_umem := k_umem s |}.

(** What is left of the performance test once the configuration has been
    fetched: run the test, copy the record back, leave through [exit]. *)
Definition perf_test_after_copy (arg : Z) : kern perf Z :=
  let exit (rv : Z) := (clear_bit XENGINE_BUSY_BIT;; ret rv) in
  rv ← xdma2_performance_submit;
  if rv <? 0 then exit rv else
  rv ← copy_perf_to_user arg;
  exit rv.

(** The request's mode agrees with the direction of the engine. *)
Definition mode_matches (mode : Z) (d : dma_data_direction) : Prop :=
  (mode = XDMA_H2C /\ d = DMA_TO_DEVICE) \/
  (mode = XDMA_C2H /\ d = DMA_FROM_DEVICE).

(** The store in which the handler re-validates the buffer region: busy
    taken, buffer and length staged. *)
Definition stage_request (buf len : Z) (s : kstate perf) : kstate perf :=
  {| k_engine :=
       set_tp_length len (set_tp_buf buf
         (with_flags (k_engine s)
            (Z.setbit (flags (k_engine s)) XENGINE_BUSY_BIT)));
     k_umem := k_umem s |}.

(** The request is well formed up to the staging of buffer and length:
    its region is accessible, its mode is readable and matches the engine,
    the engine is idle, and buffer and length are readable. *)
Definition request_staged (arg : Z) (s : kstate perf) (buf len : Z) : Prop :=
  0 <= access_assert arg sizeof_transfer_request /\
  (exists cm, k_umem s !! (arg + off_mode) = Some cm /\
              mode_matches (contents cm) (dir (k_engine s))) /\
  busy s = false /\
  (exists cb, k_umem s !! (arg + off_buf) = Some cb /\ contents cb = buf) /\
  (exists cl, k_umem s !! (arg + off_length) = Some cl /\ contents cl = len).

(** The call gets as far as the submission, which it enters in store
    [g]: the request is staged, its buffer region is accessible and, on a
    non-streaming engine, the device address is readable and staged too. *)
Definition reaches_submission (arg : Z) (s g : kstate perf) : Prop :=
  exists buf len : Z,
    request_staged arg s buf len /\
    0 <= access_assert buf len /\
    ((streaming (k_engine s) = true /\ g = stage_request buf len s) \/
     (streaming (k_engine s) = false /\
      exists ca, k_umem s !! (arg + off_axi_address) = Some ca /\
        g = {| k_engine :=
                 set_tp_ep_addr (contents ca)
                   (k_engine (stage_request buf len s));
               k_umem := k_umem s |})).

(** The access mode a file was opened with. *)
Definition access_mode (filp : file) : Z := Z.land (f_flags filp) O_ACCMODE.

(** The file as [char_sgdma_open] hands it to the kernel's helpers: bound
    to the node, with the mode bit of the other direction removed. *)
Definition restrict_mode (d : dma_data_direction) (inode : inode) (filp : file)
  : file :=
  let f := char_open inode filp in
  with_f_mode f
    (Z.land (f_mode f)
       (Z.lnot (if dir_eqb d DMA_TO_DEVICE then FMODE_READ else FMODE_WRITE))).

(** The kernel's own check of the file does not object: it is made for
    memory-mapped engines only. *)
Definition file_check_passes (inode : inode) (filp : file)
  (e : xdma2_engine perf) : Prop :=
  streaming e = true \/
  0 <= generic_file_open inode (restrict_mode (dir e) inode filp).

(** The access mode fits the direction of the engine. *)
Definition access_fits (filp : file) (e : xdma2_engine perf) : Prop :=
  (dir e = DMA_TO_DEVICE /\ access_mode filp = O_WRONLY) \/
  (dir e = DMA_FROM_DEVICE /\ access_mode filp = O_RDONLY).

End Vocabulary.

(** ** The transfer command, step by step

    The handlers above give the result of a call and the store at return.
    What another caller can find in the engine while a call is still
    running is the store between two of its steps.  [stepped] is the monad
    of the handlers with the store after every step recorded, in order:
    every access to the engine or to the caller's memory (a bit operation
    on the flags word, a read or a write of a field, a read or a write of
    user memory, a call of the submission routine) is one step.  The
    transfer command is embedded a second time in this monad, statement by
    statement as before. *)

Section Steps.

Context {perf : Type} {K : Collaborators perf}.

Definition stepped (A : Type) : Type :=
  kstate perf -> A * kstate perf * list (kstate perf).

#[global] Instance stepped_ret : MRet stepped :=
  fun A a s => (a, s, []).
#[global] Instance stepped_bind : MBind stepped :=
  fun A B k m s =>
    let '(a, s1, h1) := m s in
    let '(b, s2, h2) := k a s1 in
    (b, s2, h1 ++ h2).

(** One step: the action runs and the store it leaves is recorded. *)
Definition step {A : Type} (m : kern perf A) : stepped A :=
  fun s => let (a, s') := m s in (a, s', [s']).

(** The stores in which another caller can find the engine while the
    call [m] runs from [s]: the store at entry and the store after each
    step. *)
Definition stores_during {A : Type} (m : stepped A) (s : kstate perf)
  : list (kstate perf) :=
  s :: (m s).2.

(** [m] run with its steps recorded and [m'] agree on the result and on
    the store at return. *)
Definition erases {A : Type} (m : stepped A) (m' : kern perf A) : Prop :=
  forall s : kstate perf, (m s).1 = m' s.

Definition submit_and_report_steps (user_transfer_request : Z) : stepped Z :=
  let exit (rv : Z) : stepped Z :=
    (step (clear_bit XENGINE_BUSY_BIT);; mret rv) in
  transfer_res ← step xdma2_xfer_submit;
  if transfer_res <? 0 then
    rv ← step (__put_user 0 (user_transfer_request + off_length));
    if rv <? 0 then exit rv else
    exit (to_int transfer_res)
  else
    rv ← step (__put_user transfer_res (user_transfer_request + off_length));
    if rv <? 0 then exit rv else
    exit 0.

Definition ioctl_do_submit_transfer_steps (arg : Z) : stepped Z :=
  let user_transfer_request := arg in
  let rv := access_assert user_transfer_request sizeof_transfer_request in
  if rv <? 0 then mret rv else
  '(rv, transfer_mode) ← step (__get_user (user_transfer_request + off_mode));
  if rv <? 0 then mret rv else
  engine ← step get_engine;
  (* to verify user intention, otherwise not really necessary *)
  if negb ((transfer_mode =? XDMA_H2C) && dir_eqb (dir engine) DMA_TO_DEVICE)
     && negb ((transfer_mode =? XDMA_C2H) && dir_eqb (dir engine) DMA_FROM_DEVICE)
  then mret (- ENOTSUPP) else
  busy ← step (test_and_set_bit XENGINE_BUSY_BIT);
  if busy : bool then mret (- EBUSY) else
  let exit (rv : Z) : stepped Z :=
    (step (clear_bit XENGINE_BUSY_BIT);; mret rv) in
  (* we already checked the access *)
  '(rv, v) ← step (__get_user (user_transfer_request + off_buf));
  step (modify_engine (set_tp_buf v));;
  if rv <? 0 then exit rv else
  '(rv, v) ← step (__get_user (user_transfer_request + off_length));
  step (modify_engine (set_tp_length v));;
  if rv <? 0 then exit rv else
  engine ← step get_engine;
  let rv := access_assert (tp_buf (transfer_params engine))
                          (tp_length (transfer_params engine)) in
  if rv <? 0 then
    step (modify_engine (set_tp_buf 0));;
    step (modify_engine (set_tp_length 0));;
    exit rv
  else
  if negb (streaming engine) then
    '(rv, v) ← step (__get_user (user_transfer_request + off_axi_address));
    step (modify_engine (set_tp_ep_addr v));;
    if rv <? 0 then exit rv else
    submit_and_report_steps user_transfer_request
  else
    submit_and_report_steps user_transfer_request.

End Steps.

Arguments stepped : clear implicits.

(** ** A reference configuration

    One concrete choice of the collaborators, used to run the handlers on
    explicit calls: the request structure is laid out as buf, length,
    axi_address, mode; user addresses lie below 2^47; a submission moves the
    staged length, at most 4096 bytes in one call, or fails with -EINVAL
    when the staged buffer address is odd; a performance run counts itself
    in the performance record. *)

Definition EINVAL : Z := 22.
Definition MAGIC_CHAR : Z := 0xCCCCCCCC.
Definition ref_sizeof_perf : N := 40.

Definition ref_access_ok (ptr n : Z) : bool :=
  (0 <? ptr) && (0 <=? n) && (ptr + n <=? 2 ^ 47).

Definition ref_copy_from_user (um : gmap Z ucell) (from : Z) (to : Z) : N * Z :=
  match um !! from with
  | Some c => (0%N, contents c)
  | None => (ref_sizeof_perf, to)
  end.

Definition ref_copy_to_user (um : gmap Z ucell) (to : Z) (from : Z)
  : N * gmap Z ucell :=
  match um !! to with
  | Some c =>
      if writable c then (0%N, <[to := mk_ucell true from]> um)
      else (ref_sizeof_perf, um)
  | None => (ref_sizeof_perf, um)
  end.

Definition ref_xfer_submit : kern Z Z :=
  fun s =>
    let p := transfer_params (k_engine s) in
    if Z.odd (tp_buf p) then (- EINVAL, s)
    else (Z.min (tp_length p) 4096, s).

Definition ref_performance_submit : kern Z Z :=
  fun s =>
    (0, {| k_engine := with_xdma2_perf (k_engine s) (xdma2_perf (k_engine s) + 1);
           k_umem := k_umem s |}).

Definition ref_xcdev_check (x : option xdma2_cdev) : Z :=
  match x with
  | Some c => if magic c =? MAGIC_CHAR then 0 else - EINVAL
  | None => - EINVAL
  end.

#[local] Instance ref_kernel : Collaborators Z := {|
  XENGINE_BUSY_BIT := 0;
  XENGINE_OPEN_BIT := 1;
  XDMA_H2C := 0;
  XDMA_C2H := 1;
  sizeof_transfer_request := 32;
  off_mode := 24;
  off_buf := 0;
  off_length := 8;
  off_axi_address := 16;
  XDMA2_IOCTL_PERF_TEST := 1;
  XDMA2_IOCTL_ADDRMODE_SET := 2;
  XDMA2_IOCTL_ADDRMODE_GET := 3;
  XDMA2_IOCTL_ALIGN_GET := 4;
  XDMA2_IOCTL_SUBMIT_TRANSFER := 5;
  debug_asserts := true;
  access_ok := ref_access_ok;
  access_assert := fun ptr n => if ref_access_ok ptr n then 0 else - EFAULT;
  copy_from_user := ref_copy_from_user;
  copy_to_user := ref_copy_to_user;
  xdma2_xfer_submit := ref_xfer_submit;
  xdma2_performance_submit := ref_performance_submit;
  xcdev_check := ref_xcdev_check;
  generic_file_open := fun _ _ => 0;
  stream_open := fun _ f => f;
  char_llseek := fun f _ _ => (0, f)
|}.

(** An engine of the given direction, modes and flags word, with nothing
    staged, and a store that holds it. *)
Definition ref_engine (d : dma_data_direction) (strm nia : bool) (fl : Z)
  : xdma2_engine Z :=
  {| flags := fl; dir := d; streaming := strm; non_incr_addr := nia;
     eop_flush := false; addr_align := 1;
     transfer_params := mk_params 0 0 0; xdma2_perf := 0 |}.

Definition ref_state (d : dma_data_direction) (strm nia : bool) (fl : Z)
  (um : gmap Z ucell) : kstate Z :=
  {| k_engine := ref_engine d strm nia fl; k_umem := um |}.

Definition ref_node : inode := mk_inode (mk_cdev MAGIC_CHAR).

Definition ref_file (fl : Z) : file :=
  {| f_flags := fl; f_mode := 3; private_data := Some (mk_cdev MAGIC_CHAR) |}.

(** A transfer request at user address [0x1000] for device address [0x200];
    [w] says whether the page of the request is writable. *)
Definition ref_request (mode buf len : Z) (w : bool) : gmap Z ucell :=
  <[0x1000 := mk_ucell w buf]>
  (<[0x1008 := mk_ucell w len]>
  (<[0x1010 := mk_ucell w 0x200]>
  (<[0x1018 := mk_ucell w mode]> ∅))).

(** The store in which the reference request for [len] bytes at [buf]
    enters the submission on an idle memory-mapped host-to-device engine. *)
Definition ref_gate (buf len : Z) (w : bool) : kstate Z :=
  {| k_engine :=
       {| flags := 1; dir := DMA_TO_DEVICE; streaming := false;
          non_incr_addr := false; eop_flush := false; addr_align := 1;
          transfer_params := mk_params buf len 0x200; xdma2_perf := 0 |};
     k_umem := ref_request 0 buf len w |}.

(** A busy engine with a transfer of 64 bytes at [0x7000] staged. *)
Definition ref_busy_state : kstate Z :=
  {| k_engine :=
       {| flags := 1; dir := DMA_TO_DEVICE; streaming := false;
          non_incr_addr := false; eop_flush := false; addr_align := 1;
          transfer_params := mk_params 0x7000 64 0; xdma2_perf := 0 |};
     k_umem := ref_request 0 0x8000 8192 true |}.

(** ** Proof support *)

(** Unfolding the monad and the primitive actions. *)
Ltac kern_unfold :=
  unfold char_sgdma_read, char_sgdma_read_write, ioctl_do_perf_test,
    ioctl_do_addrmode_set, ioctl_do_addrmode_get, ioctl_do_align_get,
    ioctl_do_submit_transfer, submit_and_report, char_sgdma_ioctl,
    char_sgdma_open,
    char_sgdma_close, get_user, put_user, __get_user, __put_user,
    copy_perf_from_user, copy_perf_to_user, engine_addrmode_set,
    test_and_set_bit, clear_bit, modify_engine, get_engine,
    mbind, kern_bind, bind, mret, kern_ret, ret in *.

(** Case analysis on every test the unfolded handler makes; equations
    between results that a case split leaves behind are used at once. *)
Ltac kern_cases :=
  repeat (cbn in *;
          match goal with
          | H : (_, _) = (_, _) |- _ => inversion H; subst; clear H
          | H : context [match ?x with _ => _ end] |- _ => destruct x eqn:?
          | |- context [match ?x with _ => _ end] => destruct x eqn:?
          end);
  cbn in *.

(** ** Properties *)

Section Properties.

Context {perf : Type} {K : Collaborators perf}.

(** *** Bits of the flags word *)

Lemma testbit_clearbit (w n : Z) : Z.testbit (Z.clearbit w n) n = false.
Proof.
  destruct (Z.ltb_spec n 0) as [Hn | Hn].
  - now apply Z.testbit_neg_r.
  - rewrite Z.clearbit_eqb by assumption.
    rewrite Z.eqb_refl. apply andb_false_r.
Qed.

Lemma setbit_already (w n : Z) : Z.testbit w n = true -> Z.setbit w n = w.
Proof.
  intros Hb. apply Z.bits_inj'. intros m Hm.
  destruct (Z.ltb_spec n 0) as [Hn | Hn].
  - rewrite (Z.testbit_neg_r w n) in Hb by assumption. discriminate.
  - rewrite Z.setbit_eqb by assumption.
    destruct (Z.eqb_spec n m) as [-> | _]; [now rewrite Hb | reflexivity].
Qed.

Lemma clearbit_setbit (w n : Z) :
  Z.testbit w n = false -> Z.clearbit (Z.setbit w n) n = w.
Proof.
  intros Hb. apply Z.bits_inj'. intros m Hm.
  destruct (Z.ltb_spec n 0) as [Hn | Hn].
  - unfold Z.clearbit, Z.setbit.
    replace (Z.shiftl 1 n) with 0.
    + now rewrite Z.lor_0_r, Z.ldiff_0_r.
    + symmetry. rewrite <- (Z.opp_involutive n), Z.shiftl_opp_r.
      apply Z.shiftr_eq_0; [lia | simpl; lia ].
  - rewrite Z.clearbit_eqb, Z.setbit_eqb by assumption.
    destruct (Z.eqb_spec n m) as [-> | _]; simpl.
    + now rewrite Hb.
    + now rewrite andb_true_r.
Qed.

Lemma with_flags_same (e : xdma2_engine perf) : with_flags e (flags e) = e.
Proof. now destruct e. Qed.

Lemma kstate_eta (s : kstate perf) :
  {| k_engine := k_engine s; k_umem := k_umem s |} = s.
Proof. now destruct s. Qed.

Lemma set_busy_held (s : kstate perf) (nr : Z) :
  test_bit nr (flags (k_engine s)) = true ->
  {| k_engine := with_flags (k_engine s) (Z.setbit (flags (k_engine s)) nr);
     k_umem := k_umem s |} = s.
Proof.
  unfold test_bit. intros Hb. rewrite setbit_already by assumption.
  rewrite with_flags_same. apply kstate_eta.
Qed.

(** *** The busy bit is released on every exit *)

Lemma read_write_releases_busy (filp : file) (buf count pos : Z)
  (s : kstate perf) :
  busy s = false ->
  busy (char_sgdma_read_write filp buf count pos s).2 = false.
Proof.
  intros Hb. kern_unfold. unfold busy, test_bit in *.
  kern_cases; try apply testbit_clearbit; congruence.
Qed.

Lemma perf_test_releases_busy (arg : Z) (s : kstate perf) :
  busy s = false -> busy (ioctl_do_perf_test arg s).2 = false.
Proof.
  intros Hb. kern_unfold. unfold busy, test_bit in *.
  kern_cases; try apply testbit_clearbit; congruence.
Qed.

Lemma addrmode_set_releases_busy (arg : Z) (s : kstate perf) :
  busy s = false -> busy (ioctl_do_addrmode_set arg s).2 = false.
Proof.
  intros Hb. kern_unfold. unfold busy, test_bit in *.
  kern_cases; try apply testbit_clearbit; congruence.
Qed.

Lemma submit_transfer_releases_busy (arg : Z) (s : kstate perf) :
  busy s = false -> busy (ioctl_do_submit_transfer arg s).2 = false.
Proof.
  intros Hb. kern_unfold. unfold busy, test_bit in *.
  kern_cases; try apply testbit_clearbit; congruence.
Qed.

Lemma readonly_commands_keep_flags (arg : Z) (s : kstate perf) :
  flags (k_engine (ioctl_do_addrmode_get arg s).2) = flags (k_engine s) /\
  flags (k_engine (ioctl_do_align_get arg s).2) = flags (k_engine s).
Proof. kern_unfold. split; kern_cases; reflexivity. Qed.

Lemma ioctl_releases_busy (filp : file) (cmd arg : Z) (s : kstate perf) :
  busy s = false -> busy (char_sgdma_ioctl filp cmd arg s).2 = false.
Proof.
  intros Hb. unfold char_sgdma_ioctl.
  destruct (readonly_commands_keep_flags arg s) as [Hget Halign].
  repeat match goal with
         | |- context [if ?b then _ else _] => destruct b
         end;
    auto using perf_test_releases_busy, addrmode_set_releases_busy,
      submit_transfer_releases_busy.
  - unfold busy in *. now rewrite Hget.
  - unfold busy in *. now rewrite Halign.
Qed.

(** C1. Whatever the collaborators do and whatever the caller passes, an
    operation that takes the busy bit (byte-stream write and read, the
    performance test, the address-mode command, the transfer command, and
    the command dispatcher in front of them) gives it back: entered with
    the busy bit clear, each of them returns with the busy bit clear, on
    every exit path. *)
Theorem busy_released_on_every_exit
  (filp : file) (buf count pos cmd arg : Z) (s : kstate perf) :
  busy s = false ->
  busy (write sgdma_fops filp buf count pos s).2 = false /\
  busy (read sgdma_fops filp buf count pos s).2 = false /\
  busy (ioctl_do_perf_test arg s).2 = false /\
  busy (ioctl_do_addrmode_set arg s).2 = false /\
  busy (ioctl_do_submit_transfer arg s).2 = false /\
  busy (unlocked_ioctl sgdma_fops filp cmd arg s).2 = false.
Proof.
  intros Hb. cbn [write read unlocked_ioctl sgdma_fops]. unfold char_sgdma_read.
  repeat split;
    auto using read_write_releases_busy, perf_test_releases_busy,
      addrmode_set_releases_busy, submit_transfer_releases_busy,
      ioctl_releases_busy.
Qed.

(** *** Read and write are one routine *)

(** C10. The read entry and the write entry of the file-operations table
    are the same transfer routine: as functions they are equal, so for
    every file, buffer, length, position and store they return the same
    result, the same cursor and the same final store. *)
Theorem read_and_write_share_routine :
  read sgdma_fops = write sgdma_fops /\
  forall (filp : file) (buf count pos : Z) (s : kstate perf),
    read sgdma_fops filp buf count pos s =
    char_sgdma_read_write filp buf count pos s /\
    write sgdma_fops filp buf count pos s =
    char_sgdma_read_write filp buf count pos s.
Proof. split; [reflexivity | intros; split; reflexivity]. Qed.

(** *** The position cursor *)

Lemma to_loff_t_in_range (z : Z) :
  LLONG_MIN <= z <= LLONG_MAX -> to_loff_t z = z.
Proof.
  unfold to_loff_t, wrap_signed, LLONG_MIN, LLONG_MAX.
  change (2 ^ (64 - 1)) with (2 ^ 63).
  intros Hz. rewrite Z.mod_small; lia.
Qed.

Lemma to_int_in_range (z : Z) : INT_MIN <= z <= INT_MAX -> to_int z = z.
Proof.
  unfold to_int, wrap_signed, INT_MIN, INT_MAX.
  change (2 ^ (32 - 1)) with (2 ^ 31).
  intros Hz. rewrite Z.mod_small; lia.
Qed.

Lemma read_write_busy (filp : file) (buf count pos : Z) (s : kstate perf) :
  busy s = true ->
  char_sgdma_read_write filp buf count pos s = (- EBUSY, pos, s).
Proof.
  intros Hb. unfold char_sgdma_read_write at 1. kern_unfold. cbn.
  unfold busy, test_bit in Hb. rewrite Hb.
  now rewrite set_busy_held.
Qed.

Lemma read_write_idle (filp : file) (buf count pos : Z) (s : kstate perf) :
  busy s = false ->
  char_sgdma_read_write filp buf count pos s =
  let r := xdma2_xfer_submit (stage_read_write buf count pos s) in
  let e := k_engine r.2 in
  (r.1,
   if negb (streaming e) && negb (non_incr_addr e) && (0 <? r.1)
   then to_loff_t (pos + r.1) else pos,
   {| k_engine := with_flags e (Z.clearbit (flags e) XENGINE_BUSY_BIT);
      k_umem := k_umem r.2 |}).
Proof.
  intros Hb. unfold stage_read_write. kern_unfold. cbn.
  unfold busy, test_bit in Hb. rewrite Hb.
  destruct (streaming (k_engine s)) eqn:Hs; cbn; rewrite ?Hs; cbn;
    match goal with
    | |- context [xdma2_xfer_submit ?x] => destruct (xdma2_xfer_submit x)
    end; reflexivity.
Qed.

Lemma stage_read_write_mode (buf count pos : Z) (s : kstate perf) :
  streaming (k_engine (stage_read_write buf count pos s))
  = streaming (k_engine s) /\
  non_incr_addr (k_engine (stage_read_write buf count pos s))
  = non_incr_addr (k_engine s).
Proof.
  unfold stage_read_write. cbn.
  destruct (streaming (k_engine s)) eqn:Hs; cbn; rewrite ?Hs; now split.
Qed.

Lemma read_write_keeps_mode (filp : file) (buf count pos : Z)
  (s : kstate perf) :
  xfer_submit_keeps_mode ->
  let s' := (char_sgdma_read_write filp buf count pos s).2 in
  streaming (k_engine s') = streaming (k_engine s) /\
  non_incr_addr (k_engine s') = non_incr_addr (k_engine s).
Proof.
  intros Hk. destruct (busy s) eqn:Hb.
  - rewrite read_write_busy by assumption. now split.
  - rewrite read_write_idle by assumption. cbn.
    destruct (Hk (stage_read_write buf count pos s)) as [-> ->].
    apply stage_read_write_mode.
Qed.

Lemma read_write_cursor (filp : file) (buf count pos : Z) (s : kstate perf) :
  xfer_submit_keeps_mode ->
  let r := char_sgdma_read_write filp buf count pos s in
  r.1.2 =
  if negb (streaming (k_engine s)) && negb (non_incr_addr (k_engine s))
     && (0 <? r.1.1)
  then to_loff_t (pos + r.1.1) else pos.
Proof.
  intros Hk. destruct (busy s) eqn:Hb.
  - rewrite read_write_busy by assumption. cbn.
    now rewrite andb_false_r.
  - rewrite read_write_idle by assumption. cbn.
    destruct (Hk (stage_read_write buf count pos s)) as [-> ->].
    now destruct (stage_read_write_mode buf count pos s) as [-> ->].
Qed.

(** C6. Provided the submission routine leaves the transfer mode of the
    engine alone: the result of a byte-stream transfer on an idle engine is
    the result of the submission; on a non-streaming engine in
    incrementing-address mode a non-negative result [rv] moves the cursor
    from [pos] to [pos + rv] (within the range of [loff_t]); on a streaming
    engine, in non-incrementing-address mode, or when the result is
    negative the cursor is unchanged.  Hence two transfers in a row that
    move [rv1] and [rv2] bytes leave the cursor at [pos + rv1 + rv2], and
    leave it at [pos] in non-incrementing-address mode. *)
Theorem position_cursor_advance :
  xfer_submit_keeps_mode ->
  (forall (filp : file) (buf count pos : Z) (s : kstate perf),
     let r := char_sgdma_read_write filp buf count pos s in
     let rv := r.1.1 in
     let pos' := r.1.2 in
     (busy s = false ->
      rv = (xdma2_xfer_submit (stage_read_write buf count pos s)).1) /\
     (streaming (k_engine s) = false ->
      non_incr_addr (k_engine s) = false ->
      0 <= rv -> LLONG_MIN <= pos -> pos + rv <= LLONG_MAX ->
      pos' = pos + rv) /\
     (streaming (k_engine s) = true \/ non_incr_addr (k_engine s) = true
      \/ rv < 0 ->
      pos' = pos)) /\
  (forall (filp : file) (buf1 count1 buf2 count2 pos : Z) (s : kstate perf),
     let r1 := char_sgdma_read_write filp buf1 count1 pos s in
     let r2 := char_sgdma_read_write filp buf2 count2 r1.1.2 r1.2 in
     streaming (k_engine s) = false ->
     0 <= r1.1.1 -> 0 <= r2.1.1 ->
     (non_incr_addr (k_engine s) = false ->
      LLONG_MIN <= pos -> pos + r1.1.1 + r2.1.1 <= LLONG_MAX ->
      r2.1.2 = pos + r1.1.1 + r2.1.1) /\
     (non_incr_addr (k_engine s) = true -> r1.1.2 = pos /\ r2.1.2 = pos)).
Proof.
  intros Hk. split.
  - intros filp buf count pos s r rv pos'. subst pos' rv r.
    rewrite (read_write_cursor filp buf count pos s Hk).
    repeat split.
    + intros Hb. now rewrite read_write_idle.
    + intros -> -> Hrv Hlo Hhi. cbn.
      destruct (Z.ltb_spec 0 (char_sgdma_read_write filp buf count pos s).1.1).
      * apply to_loff_t_in_range. lia.
      * lia.
    + intros [-> | [-> | Hneg]]; cbn; try now rewrite ?andb_false_r.
      destruct (Z.ltb_spec 0 (char_sgdma_read_write filp buf count pos s).1.1);
        [lia | now rewrite andb_false_r].
  - intros filp buf1 count1 buf2 count2 pos s r1 r2 Hs Hrv1 Hrv2.
    destruct (read_write_keeps_mode filp buf1 count1 pos s Hk) as [Hs1 Hn1].
    fold r1 in Hs1, Hn1.
    assert (Hc1 := read_write_cursor filp buf1 count1 pos s Hk).
    assert (Hc2 := read_write_cursor filp buf2 count2 r1.1.2 r1.2 Hk).
    cbn zeta in Hc1, Hc2. fold r1 in Hc1. fold r1 r2 in Hc2.
    rewrite Hs1, Hn1 in Hc2. rewrite Hs in Hc1, Hc2.
    split.
    + intros Hn Hlo Hhi. rewrite Hn in Hc1, Hc2. cbn in Hc1, Hc2.
      assert (Hp1 : r1.1.2 = pos + r1.1.1).
      { rewrite Hc1. destruct (Z.ltb_spec 0 r1.1.1);
          [apply to_loff_t_in_range | ]; lia. }
      rewrite Hc2, Hp1. destruct (Z.ltb_spec 0 r2.1.1);
        [apply to_loff_t_in_range | ]; lia.
    + intros Hn. rewrite Hn in Hc1, Hc2. cbn in Hc1, Hc2.
      rewrite Hc2. now split.
Qed.

(** *** The address-mode command *)

Lemma get_user_pure (ptr : Z) (s : kstate perf) : (get_user ptr s).2 = s.
Proof. kern_unfold. kern_cases; reflexivity. Qed.

(** C3, as the code has it.  The address-mode command first reads the
    boolean from the caller.  If that read faults, the command returns the
    fault and leaves the store as it was, whether or not the engine is
    busy.  If the read succeeds and the busy bit is held, the command fails
    with -EBUSY and leaves the store as it was.  If the read succeeds and
    the busy bit is free, the command assigns the boolean (non-zero is
    true) to [non_incr_addr], returns 0, and returns with the busy bit
    clear, the other flags and the caller's memory unchanged. *)
Theorem addrmode_set_reads_then_locks (arg : Z) (s : kstate perf) :
  let got := (get_user arg s).1 in
  let r := ioctl_do_addrmode_set arg s in
  (got.1 < 0 -> r = (got.1, s)) /\
  (0 <= got.1 -> busy s = true -> r = (- EBUSY, s)) /\
  (0 <= got.1 -> busy s = false ->
   r.1 = 0 /\
   non_incr_addr (k_engine r.2) = negb (got.2 =? 0) /\
   busy r.2 = false /\
   flags (k_engine r.2) = flags (k_engine s) /\
   k_umem r.2 = k_umem s).
Proof.
  cbn zeta. unfold ioctl_do_addrmode_set, mbind, kern_bind, bind.
  assert (Hpure := get_user_pure arg s).
  destruct (get_user arg s) as [[rv v] s0]. cbn in Hpure. subst s0. cbn.
  split; [ | split ].
  - intros Hneg. apply Z.ltb_lt in Hneg. now rewrite Hneg.
  - intros Hok Hb. apply Z.ltb_ge in Hok. rewrite Hok.
    unfold busy, test_bit in Hb. kern_unfold. cbn. rewrite Hb.
    now rewrite set_busy_held.
  - intros Hok Hb. apply Z.ltb_ge in Hok. rewrite Hok.
    unfold busy, test_bit in *. kern_unfold. cbn. rewrite Hb. cbn.
    repeat split.
    + apply testbit_clearbit.
    + now apply clearbit_setbit.
Qed.

(** *** The performance-test command *)

(** C2, on the code.  [copy_from_user] reports a failed copy as the count
    of bytes it could not copy, which is positive; the handler only leaves
    early when that count is negative.  So when the copy of the
    configuration fails on an idle engine, leaving [n] bytes uncopied and
    [cfg] in the engine, the handler goes on with the performance run on
    that partial configuration, and what it returns is what the run and the
    copy back produce: the negative result of the run, or the count of
    bytes the copy back could not store.  The busy bit is clear at
    return. *)
Theorem perf_test_copy_failure_still_runs
  (arg : Z) (s : kstate perf) (n : N) (cfg : perf) :
  busy s = false ->
  copy_from_user (k_umem s) arg (xdma2_perf (k_engine s)) = (n, cfg) ->
  (0 < n)%N ->
  Z.of_N n <= INT_MAX ->
  let partial :=
    {| k_engine :=
         with_xdma2_perf
           (with_flags (k_engine s)
              (Z.setbit (flags (k_engine s)) XENGINE_BUSY_BIT)) cfg;
       k_umem := k_umem s |} in
  let run := xdma2_performance_submit partial in
  ioctl_do_perf_test arg s = perf_test_after_copy arg partial /\
  (run.1 < 0 -> (ioctl_do_perf_test arg s).1 = run.1) /\
  (0 <= run.1 ->
   (ioctl_do_perf_test arg s).1 = (copy_perf_to_user arg run.2).1) /\
  busy (ioctl_do_perf_test arg s).2 = false.
Proof.
  intros Hb Hcopy Hpos Hmax partial run.
  assert (Heq : ioctl_do_perf_test arg s = perf_test_after_copy arg partial).
  { unfold ioctl_do_perf_test, perf_test_after_copy.
    unfold busy, test_bit in Hb.
    unfold mbind, kern_bind, bind, test_and_set_bit, copy_perf_from_user.
    cbn. rewrite Hb. cbn. rewrite Hcopy. cbn.
    rewrite to_int_in_range by (unfold INT_MIN, INT_MAX in *; lia).
    destruct (Z.ltb_spec (Z.of_N n) 0); [lia | reflexivity]. }
  split; [exact Heq | ].
  split; [ | split ].
  - intros Hneg. rewrite Heq. unfold perf_test_after_copy.
    unfold mbind, kern_bind, bind. fold run.
    destruct run as [rv s2]. cbn in *.
    apply Z.ltb_lt in Hneg. rewrite Hneg. reflexivity.
  - intros Hok. rewrite Heq. unfold perf_test_after_copy.
    unfold mbind, kern_bind, bind. fold run.
    destruct run as [rv s2]. cbn in *.
    apply Z.ltb_ge in Hok. rewrite Hok.
    destruct (copy_perf_to_user arg s2). reflexivity.
  - now apply perf_test_releases_busy.
Qed.

(** *** The transfer command *)

Lemma dir_eqb_eq (a b : dma_data_direction) : dir_eqb a b = true <-> a = b.
Proof. destruct a, b; cbn; split; congruence. Qed.

Lemma mode_check_spec (mode : Z) (d : dma_data_direction) :
  negb ((mode =? XDMA_H2C) && dir_eqb d DMA_TO_DEVICE)
  && negb ((mode =? XDMA_C2H) && dir_eqb d DMA_FROM_DEVICE) = false
  <-> mode_matches mode d.
Proof.
  unfold mode_matches.
  rewrite andb_false_iff, !negb_false_iff, !andb_true_iff, !Z.eqb_eq,
    !dir_eqb_eq.
  reflexivity.
Qed.

(** A host-to-device request on a device-to-host engine, or the reverse,
    is a mismatch as soon as the two mode codes differ. *)
Lemma cross_direction_mismatch (mode : Z) (d : dma_data_direction) :
  XDMA_H2C <> XDMA_C2H ->
  (mode = XDMA_H2C /\ d = DMA_FROM_DEVICE) \/
  (mode = XDMA_C2H /\ d = DMA_TO_DEVICE) ->
  ~ mode_matches mode d.
Proof.
  unfold mode_matches.
  intros Hne [[-> ->] | [-> ->]] [[? ?] | [? ?]]; congruence.
Qed.

Lemma erases_ret {A : Type} (a : A) :
  erases (perf := perf) (mret a) (ret a).
Proof. intros s. reflexivity. Qed.

Lemma erases_step {A : Type} (m : kern perf A) : erases (step m) m.
Proof. intros s. unfold step. now destruct (m s). Qed.

Lemma erases_bind {A B : Type} (m : stepped perf A) (m' : kern perf A)
  (k : A -> stepped perf B) (k' : A -> kern perf B) :
  erases m m' -> (forall a, erases (k a) (k' a)) ->
  erases (m ≫= k) (m' ≫= k').
Proof.
  intros Hm Hk s. unfold mbind, stepped_bind, kern_bind, bind.
  specialize (Hm s). destruct (m s) as [[a s1] h1]. cbn in Hm.
  rewrite <- Hm. specialize (Hk a s1).
  destruct (k a s1) as [[b s2] h2]. cbn in Hk. now rewrite <- Hk.
Qed.

(** Erasure follows the structure of the handler. *)
Ltac erase_steps :=
  repeat first
    [ apply erases_ret
    | apply erases_step
    | apply erases_bind; [ | intros ? ]
    | match goal with
      | |- erases (if ?b then _ else _) _ => destruct b
      | |- erases (let '(_, _) := ?p in _) _ => destruct p
      end ].

Lemma submit_and_report_steps_erase (user_transfer_request : Z) :
  erases (submit_and_report_steps user_transfer_request)
         (submit_and_report user_transfer_request).
Proof.
  unfold submit_and_report_steps, submit_and_report. cbv zeta. erase_steps.
Qed.

(** Forgetting the recorded stores, the step-by-step transfer command is
    the transfer command: same result, same store at return, for every
    argument and store. *)
Lemma submit_transfer_steps_erase (arg : Z) (s : kstate perf) :
  (ioctl_do_submit_transfer_steps arg s).1 = ioctl_do_submit_transfer arg s.
Proof.
  revert s. change (erases (ioctl_do_submit_transfer_steps arg)
                           (ioctl_do_submit_transfer arg)).
  unfold ioctl_do_submit_transfer_steps, ioctl_do_submit_transfer. cbv zeta.
  erase_steps; apply submit_and_report_steps_erase.
Qed.

Lemma history_bind_l {A B : Type} (m : stepped perf A)
  (k : A -> stepped perf B) (s x : kstate perf) :
  In x (m s).2 -> In x ((m ≫= k) s).2.
Proof.
  unfold mbind, stepped_bind. destruct (m s) as [[a s1] h1].
  destruct (k a s1) as [[b s2] h2]. cbn. intros Hin.
  apply in_or_app. now left.
Qed.

Lemma history_bind_r {A B : Type} (m : stepped perf A)
  (k : A -> stepped perf B) (s s1 x : kstate perf) (a : A)
  (h1 : list (kstate perf)) :
  m s = (a, s1, h1) -> In x (k a s1).2 -> In x ((m ≫= k) s).2.
Proof.
  unfold mbind, stepped_bind. intros ->.
  destruct (k a s1) as [[b s2] h2]. cbn. intros Hin.
  apply in_or_app. now right.
Qed.

(** By contrast, a request whose mode matches takes the busy bit of an
    idle engine: among the stores of the call there is one with the bit
    set. *)
Lemma submit_transfer_steps_take_busy
  (arg : Z) (s : kstate perf) (cm : ucell) :
  0 <= XENGINE_BUSY_BIT ->
  0 <= access_assert arg sizeof_transfer_request ->
  k_umem s !! (arg + off_mode) = Some cm ->
  mode_matches (contents cm) (dir (k_engine s)) ->
  busy s = false ->
  exists s' : kstate perf,
    In s' (stores_during (ioctl_do_submit_transfer_steps arg) s) /\
    busy s' = true.
Proof.
  intros Hbit Hacc Hm Hmatch Hb.
  apply Z.ltb_ge in Hacc. apply mode_check_spec in Hmatch.
  exists {| k_engine :=
              with_flags (k_engine s)
                (Z.setbit (flags (k_engine s)) XENGINE_BUSY_BIT);
            k_umem := k_umem s |}.
  split.
  - unfold stores_during. right.
    unfold ioctl_do_submit_transfer_steps. rewrite Hacc.
    eapply history_bind_r.
    { unfold step, __get_user. rewrite Hm. reflexivity. }
    cbv beta iota. change (0 <? 0) with false. cbv iota.
    eapply history_bind_r; [reflexivity | ].
    cbv beta. cbn [k_engine]. rewrite Hmatch.
    apply history_bind_l. cbn. now left.
  - unfold busy, test_bit. cbn. now apply Z.setbit_eq.
Qed.

(** C4. A transfer request that lies in an accessible region and whose
    mode field, as read by the handler, does not match the direction of
    the engine fails with -ENOTSUPP and the call returns the store exactly
    as it found it.  The busy bit is never set by the call, not even for
    the time of the check: in the step-by-step run of the handler (which
    gives the handler's result and final store on every input) every store
    in which another caller can find the engine while the call runs (the
    store at entry and the store after each of its steps) is the store at
    entry.  So a concurrent caller that tests and sets the busy bit at any
    such point finds the bit as it was at entry, and when it was free a
    concurrent byte-stream transfer started at such a point is not refused:
    its result is the result of its own submission. *)
Theorem submit_transfer_mode_mismatch
  (arg : Z) (s : kstate perf) (cm : ucell) :
  0 <= access_assert arg sizeof_transfer_request ->
  k_umem s !! (arg + off_mode) = Some cm ->
  ~ mode_matches (contents cm) (dir (k_engine s)) ->
  ioctl_do_submit_transfer arg s = (- ENOTSUPP, s) /\
  busy (ioctl_do_submit_transfer arg s).2 = busy s /\
  (forall (arg' : Z) (s' : kstate perf),
     (ioctl_do_submit_transfer_steps arg' s').1
     = ioctl_do_submit_transfer arg' s') /\
  (forall s' : kstate perf,
     In s' (stores_during (ioctl_do_submit_transfer_steps arg) s) ->
     s' = s) /\
  (forall s' : kstate perf,
     In s' (stores_during (ioctl_do_submit_transfer_steps arg) s) ->
     (test_and_set_bit XENGINE_BUSY_BIT s').1 = busy s /\
     (busy s = false ->
      forall (filp : file) (buf count pos : Z),
        (char_sgdma_read_write filp buf count pos s').1.1
        = (xdma2_xfer_submit (stage_read_write buf count pos s)).1)).
Proof.
  intros Hacc Hm Hmis.
  assert (Heq : ioctl_do_submit_transfer arg s = (- ENOTSUPP, s)).
  { apply Z.ltb_ge in Hacc.
    rewrite <- mode_check_spec in Hmis. apply not_false_is_true in Hmis.
    unfold ioctl_do_submit_transfer. kern_unfold.
    rewrite Hacc. cbn. rewrite Hm. cbn. now rewrite Hmis. }
  assert (Hsteps : ioctl_do_submit_transfer_steps arg s
                   = (- ENOTSUPP, s, [s; s])).
  { apply Z.ltb_ge in Hacc.
    rewrite <- mode_check_spec in Hmis. apply not_false_is_true in Hmis.
    unfold ioctl_do_submit_transfer_steps, step, mbind, mret, stepped_bind,
      stepped_ret, __get_user, get_engine.
    rewrite Hacc. cbn. rewrite Hm. cbn. now rewrite Hmis. }
  assert (Hsame : forall s' : kstate perf,
            In s' (stores_during (ioctl_do_submit_transfer_steps arg) s) ->
            s' = s).
  { intros s'. unfold stores_during. rewrite Hsteps. cbn.
    intros [H | [H | [H | []]]]; now symmetry. }
  rewrite Heq. cbn [fst snd].
  split; [reflexivity | ]. split; [reflexivity | ].
  split; [exact submit_transfer_steps_erase | ].
  split; [exact Hsame | ].
  intros s' Hin. rewrite (Hsame s' Hin).
  split; [reflexivity | ].
  intros Hb filp buf count pos. now rewrite read_write_idle.
Qed.

Lemma submit_transfer_staged (arg : Z) (s : kstate perf) (buf len : Z) :
  request_staged arg s buf len ->
  ioctl_do_submit_transfer arg s =
  let g := stage_request buf len s in
  let exit (rv : Z) := (clear_bit XENGINE_BUSY_BIT;; ret rv) in
  let rv := access_assert buf len in
  if rv <? 0 then
    (modify_engine (set_tp_buf 0);; modify_engine (set_tp_length 0);; exit rv) g
  else if negb (streaming (k_engine s)) then
    ('(rv, v) ← __get_user (arg + off_axi_address);
     modify_engine (set_tp_ep_addr v);;
     if rv <? 0 then exit rv else submit_and_report arg) g
  else submit_and_report arg g.
Proof.
  intros (Hacc & (cm & Hm & Hmatch) & Hb & (cb & Hcb & <-) & (cl & Hcl & <-)).
  apply Z.ltb_ge in Hacc. apply mode_check_spec in Hmatch.
  unfold busy, test_bit in Hb.
  unfold ioctl_do_submit_transfer, stage_request.
  unfold __get_user, test_and_set_bit, modify_engine, get_engine,
    mbind, kern_bind, bind, mret, kern_ret, ret.
  rewrite Hacc. cbn. rewrite Hm. cbn. rewrite Hmatch, Hb. cbn.
  rewrite Hcb. cbn. rewrite Hcl. cbn.
  destruct (access_assert (contents cb) (contents cl) <? 0); [reflexivity | ].
  destruct (streaming (k_engine s)); reflexivity.
Qed.

(** C5. When the request has been staged and the buffer region it names
    fails the accessibility check, the call returns the negative result of
    the check, and at return the staged buffer pointer is NULL, the staged
    length is zero and the busy bit is clear; the other flags and the
    caller's memory are as before the call. *)
Theorem submit_transfer_inaccessible_buffer
  (arg : Z) (s : kstate perf) (buf len : Z) :
  request_staged arg s buf len ->
  access_assert buf len < 0 ->
  let r := ioctl_do_submit_transfer arg s in
  r.1 = access_assert buf len /\
  tp_buf (transfer_params (k_engine r.2)) = 0 /\
  tp_length (transfer_params (k_engine r.2)) = 0 /\
  busy r.2 = false /\
  flags (k_engine r.2) = flags (k_engine s) /\
  k_umem r.2 = k_umem s.
Proof.
  intros Hst Hbad r. subst r.
  rewrite (submit_transfer_staged arg s buf len Hst). cbn zeta.
  pose proof Hst as (_ & _ & Hb & _).
  apply Z.ltb_lt in Hbad. rewrite Hbad.
  unfold stage_request, busy, test_bit in *. kern_unfold. cbn.
  repeat split.
  - apply testbit_clearbit.
  - now apply clearbit_setbit.
Qed.

Lemma submit_transfer_at_gate (arg : Z) (s g : kstate perf) :
  reaches_submission arg s g ->
  ioctl_do_submit_transfer arg s = submit_and_report arg g.
Proof.
  intros (buf & len & Hst & Hok & Hg).
  rewrite (submit_transfer_staged arg s buf len Hst). cbn zeta.
  apply Z.ltb_ge in Hok. rewrite Hok.
  destruct Hg as [[Hs ->] | [Hs (ca & Hca & ->)]]; rewrite Hs; cbn.
  - reflexivity.
  - unfold mbind, kern_bind, bind, __get_user, modify_engine.
    unfold stage_request at 1. cbn. rewrite Hca. cbn. reflexivity.
Qed.

Lemma put_user_stored (v ptr : Z) (s : kstate perf) (c : ucell) :
  k_umem s !! ptr = Some c -> writable c = true ->
  __put_user v ptr s =
  (0, {| k_engine := k_engine s;
         k_umem := <[ptr := mk_ucell true v]> (k_umem s) |}).
Proof. intros Hc Hw. unfold __put_user. now rewrite Hc, Hw. Qed.

Lemma put_user_fault (v ptr : Z) (s : kstate perf) :
  (forall c, k_umem s !! ptr = Some c -> writable c = false) ->
  __put_user v ptr s = (- EFAULT, s).
Proof.
  intros Hro. unfold __put_user.
  destruct (k_umem s !! ptr) as [c | ] eqn:Hc; [ | reflexivity].
  now rewrite (Hro c eq_refl).
Qed.

(** C9, as the code has it.  For a transfer command that reaches the
    submission, with [res] the result of the submission:
    - if the length field of the request can be written, then a
      non-negative [res] is stored in the length field and the command
      returns 0, while a negative [res] makes the command store 0 in the
      length field and return [res] (as an [int]);
    - if the write to the length field faults, the command returns that
      fault, -EFAULT, whatever [res] was, and the caller's memory is as the
      submission left it;
    - in every case the busy bit is clear at return. *)
Theorem submit_transfer_write_back (arg : Z) (s g : kstate perf) :
  reaches_submission arg s g ->
  let sub := xdma2_xfer_submit g in
  let res := sub.1 in
  let len_field := arg + off_length in
  let r := ioctl_do_submit_transfer arg s in
  (forall c, k_umem sub.2 !! len_field = Some c -> writable c = true ->
     (0 <= res ->
      r.1 = 0 /\ k_umem r.2 !! len_field = Some (mk_ucell true res)) /\
     (res < 0 ->
      r.1 = to_int res /\ (INT_MIN <= res -> r.1 = res) /\
      k_umem r.2 !! len_field = Some (mk_ucell true 0))) /\
  ((forall c, k_umem sub.2 !! len_field = Some c -> writable c = false) ->
   r.1 = - EFAULT /\ k_umem r.2 = k_umem sub.2) /\
  busy r.2 = false.
Proof.
  intros Hgate sub res len_field r.
  assert (Hb : busy s = false).
  { destruct Hgate as (? & ? & (_ & _ & Hb & _) & _). exact Hb. }
  split; [ | split ].
  - intros c Hc Hw. subst r res len_field.
    rewrite (submit_transfer_at_gate arg s g Hgate).
    unfold submit_and_report, mbind, kern_bind, bind. fold sub.
    destruct sub as [res s2]. cbn in Hc |- *.
    split.
    + intros Hres. apply Z.ltb_ge in Hres. rewrite Hres.
      rewrite (put_user_stored res _ s2 c Hc Hw). cbn.
      split; [reflexivity | apply lookup_insert_eq].
    + intros Hres. pose proof Hres as Hlt. apply Z.ltb_lt in Hlt.
      rewrite Hlt. rewrite (put_user_stored 0 _ s2 c Hc Hw). cbn.
      split; [reflexivity | split; [ | apply lookup_insert_eq]].
      intros Hmin. apply to_int_in_range. unfold INT_MAX. lia.
  - intros Hro. subst r res len_field.
    rewrite (submit_transfer_at_gate arg s g Hgate).
    unfold submit_and_report, mbind, kern_bind, bind. fold sub.
    destruct sub as [res s2]. cbn in Hro |- *.
    destruct (res <? 0);
      rewrite (put_user_fault _ _ s2 Hro); cbn; now split.
  - now apply submit_transfer_releases_busy.
Qed.

(** *** Open and close *)

Lemma open_held (inode : inode) (filp : file) (s : kstate perf) :
  is_open s = true ->
  char_sgdma_open inode filp s = (- EBUSY, char_open inode filp, s).
Proof.
  intros Ho. unfold is_open, test_bit in Ho.
  unfold char_sgdma_open. kern_unfold. cbn. rewrite Ho.
  now rewrite set_busy_held.
Qed.

Lemma open_denied (inode : inode) (filp : file) (s : kstate perf) (want : Z) :
  is_open s = false ->
  (dir (k_engine s) = DMA_TO_DEVICE /\ want = O_WRONLY) \/
  (dir (k_engine s) = DMA_FROM_DEVICE /\ want = O_RDONLY) ->
  access_mode filp <> want ->
  char_sgdma_open inode filp s = (- EACCES, char_open inode filp, s).
Proof.
  intros Ho Hd Hacc. unfold is_open, test_bit in Ho.
  unfold access_mode in Hacc.
  unfold char_sgdma_open. kern_unfold. cbn. rewrite Ho. cbn.
  destruct Hd as [[Hd ->] | [Hd ->]]; rewrite Hd; cbn;
    rewrite andb_false_r;
    apply Z.eqb_neq in Hacc; rewrite Hacc; cbn;
    change (- EACCES <? 0) with true; cbn;
    rewrite clearbit_setbit by assumption;
    destruct s as [e um]; destruct e; reflexivity.
Qed.

Lemma open_admitted (inode : inode) (filp : file) (s : kstate perf) :
  is_open s = false ->
  access_fits filp (k_engine s) ->
  file_check_passes inode filp (k_engine s) ->
  let r := char_sgdma_open inode filp s in
  0 <= r.1.1 /\
  (streaming (k_engine s) = true -> r.1.1 = 0) /\
  flags (k_engine r.2) = Z.setbit (flags (k_engine s)) XENGINE_OPEN_BIT.
Proof.
  intros Ho Hfit Hchk. unfold is_open, test_bit in Ho.
  unfold access_fits, access_mode in Hfit.
  unfold file_check_passes, restrict_mode in Hchk.
  unfold char_sgdma_open. kern_unfold. cbn. rewrite Ho. cbn.
  destruct Hfit as [[Hd Hacc] | [Hd Hacc]]; rewrite Hd in *; cbn in *;
    rewrite andb_false_r; rewrite Hacc; cbn;
    destruct (streaming (k_engine s)) eqn:Hs; cbn;
    try (repeat split; (lia || reflexivity));
    destruct Hchk as [Hchk | Hchk]; try discriminate;
    pose proof Hchk as Hltb; apply Z.ltb_ge in Hltb; rewrite Hltb; cbn;
    repeat split; (lia || discriminate || reflexivity).
Qed.

Lemma close_clears_open (inode : inode) (filp : file) (s : kstate perf) :
  0 <= xcdev_check (private_data filp) ->
  char_sgdma_close inode filp s =
  (0, {| k_engine :=
           with_flags (k_engine s)
             (Z.clearbit (flags (k_engine s)) XENGINE_OPEN_BIT);
         k_umem := k_umem s |}).
Proof.
  intros Hchk. apply Z.ltb_ge in Hchk.
  unfold char_sgdma_close. kern_unfold. now rewrite Hchk.
Qed.

Lemma testbit_true_nonneg (w n : Z) : Z.testbit w n = true -> 0 <= n.
Proof.
  intros Hb. destruct (Z.ltb_spec n 0) as [Hn | Hn]; [ | assumption].
  rewrite Z.testbit_neg_r in Hb by assumption. discriminate.
Qed.

(** C7. On an engine whose open bit is free: a host-to-device engine
    lets an open succeed only with write-only access and answers any other
    access mode with -EACCES; a device-to-host engine lets an open succeed
    only with read-only access and answers any other access mode with
    -EACCES.  A refused open returns the store exactly as it found it, the
    open bit clear, so that a following open with the fitting access mode
    (which the kernel's own file check accepts) succeeds. *)
Theorem open_checks_access_mode
  (inode : inode) (filp : file) (s : kstate perf) (want : Z) :
  is_open s = false ->
  (dir (k_engine s) = DMA_TO_DEVICE /\ want = O_WRONLY) \/
  (dir (k_engine s) = DMA_FROM_DEVICE /\ want = O_RDONLY) ->
  let r := char_sgdma_open inode filp s in
  (0 <= r.1.1 -> access_mode filp = want) /\
  (access_mode filp <> want ->
   r.1.1 = - EACCES /\
   is_open r.2 = false /\
   r.2 = s /\
   forall filp' : file,
     access_mode filp' = want ->
     file_check_passes inode filp' (k_engine s) ->
     0 <= (char_sgdma_open inode filp' r.2).1.1).
Proof.
  intros Ho Hd r.
  assert (Hden : access_mode filp <> want ->
                 r = (- EACCES, char_open inode filp, s)).
  { intros Hne. now apply open_denied with (want := want). }
  split.
  - intros Hok. destruct (Z.eq_dec (access_mode filp) want) as [ | Hne];
      [assumption | ].
    rewrite (Hden Hne) in Hok. cbn in Hok. unfold EACCES in Hok. lia.
  - intros Hne. rewrite (Hden Hne). cbn.
    repeat split; [assumption | ].
    intros filp' Hacc Hchk.
    apply (open_admitted inode filp' s Ho); [ | assumption].
    unfold access_fits. destruct Hd as [[Hd ->] | [Hd ->]]; auto.
Qed.

(** C8. While the open bit is held, an open fails with -EBUSY, a code
    different from -EACCES, -ENOTSUPP and -ENOTTY, and returns the store
    exactly as it found it.  A close that passes the sanity check of the
    character device returns 0 and clears the open bit; after it, an open
    with the access mode that fits the direction of the engine (and which
    the kernel's own file check accepts) succeeds and holds the open bit
    again. *)
Theorem open_is_exclusive
  (inode : inode) (filp closing : file) (s : kstate perf) :
  is_open s = true ->
  char_sgdma_open inode filp s = (- EBUSY, char_open inode filp, s) /\
  (- EBUSY <> - EACCES /\ - EBUSY <> - ENOTSUPP /\ - EBUSY <> - ENOTTY) /\
  (0 <= xcdev_check (private_data closing) ->
   let c := char_sgdma_close inode closing s in
   c.1 = 0 /\
   is_open c.2 = false /\
   (access_fits filp (k_engine s) ->
    file_check_passes inode filp (k_engine s) ->
    let r := char_sgdma_open inode filp c.2 in
    0 <= r.1.1 /\ is_open r.2 = true)).
Proof.
  intros Ho. split; [now apply open_held | ].
  split; [unfold EBUSY, EACCES, ENOTSUPP, ENOTTY; lia | ].
  intros Hchk c. subst c. rewrite (close_clears_open inode closing s Hchk).
  cbn [fst snd].
  split; [reflexivity | ].
  assert (Hclosed :
    is_open {| k_engine :=
                 with_flags (k_engine s)
                   (Z.clearbit (flags (k_engine s)) XENGINE_OPEN_BIT);
               k_umem := k_umem s |} = false).
  { unfold is_open, test_bit. cbn. apply testbit_clearbit. }
  split; [exact Hclosed | ].
  intros Hfit Hfile.
  destruct (open_admitted inode filp _ Hclosed Hfit Hfile) as (Hrv & _ & Hfl).
  split; [exact Hrv | ].
  unfold is_open, test_bit. rewrite Hfl.
  apply Z.setbit_eq. unfold is_open, test_bit in Ho.
  now apply testbit_true_nonneg in Ho.
Qed.

End Properties.

(** ** The theorems on the reference configuration *)

(** The reference submission and performance run leave the transfer mode
    of the engine alone. *)
Lemma ref_xfer_submit_keeps_mode : @xfer_submit_keeps_mode Z ref_kernel.
Proof.
  intros s. cbn. unfold ref_xfer_submit.
  destruct (Z.odd (tp_buf (transfer_params (k_engine s)))); split; reflexivity.
Defined.

(** An idle host-to-device engine is idle after a write, a read, each
    command and the dispatcher. *)
Lemma busy_released_on_every_exit_witness :
  let s := ref_state DMA_TO_DEVICE false false 0 (ref_request 0 0x8000 64 true) in
  let f := ref_file O_WRONLY in
  busy s = false /\
  (busy (write sgdma_fops f 0x8000 64 0 s).2 = false /\
   busy (read sgdma_fops f 0x8000 64 0 s).2 = false /\
   busy (ioctl_do_perf_test 0x1000 s).2 = false /\
   busy (ioctl_do_addrmode_set 0x1000 s).2 = false /\
   busy (ioctl_do_submit_transfer 0x1000 s).2 = false /\
   busy (unlocked_ioctl sgdma_fops f 5 0x1000 s).2 = false).
Proof.
  split; [reflexivity | ].
  apply (busy_released_on_every_exit (K := ref_kernel)). reflexivity.
Defined.

(** A performance test whose configuration pointer is not mapped: the
    copy leaves all 40 bytes uncopied, the run happens all the same (the
    record counts it), and the command returns 40, the count that the copy
    back could not store. *)
Lemma perf_test_copy_failure_still_runs_witness :
  let s := ref_state DMA_TO_DEVICE false false 0 ∅ in
  busy s = false /\
  copy_from_user (k_umem s) 0x2000 (xdma2_perf (k_engine s)) = (40%N, 0) /\
  (0 < 40)%N /\
  Z.of_N 40 <= INT_MAX /\
  (ioctl_do_perf_test 0x2000 s).1 = 40 /\
  xdma2_perf (k_engine (ioctl_do_perf_test 0x2000 s).2) = 1 /\
  busy (ioctl_do_perf_test 0x2000 s).2 = false.
Proof.
  intros s.
  assert (Hmax : Z.of_N 40 <= INT_MAX) by (vm_compute; discriminate).
  destruct (perf_test_copy_failure_still_runs (K := ref_kernel)
              0x2000 s 40%N 0 eq_refl eq_refl eq_refl Hmax)
    as (Heq & _ & Hback & Hbusy).
  split; [reflexivity | ]. split; [reflexivity | ].
  split; [reflexivity | ]. split; [exact Hmax | ].
  split; [ | split; [ | exact Hbusy]].
  - rewrite Hback; [reflexivity | vm_compute; discriminate].
  - rewrite Heq. reflexivity.
Defined.

(** The address-mode command on a busy engine with an unmapped pointer
    returns the fault, not -EBUSY. *)
Lemma addrmode_set_busy_fault_counterexample :
  let s := ref_state DMA_TO_DEVICE false false 1 ∅ in
  busy s = true /\
  (ioctl_do_addrmode_set 0x3000 s).1 = - EFAULT /\
  (ioctl_do_addrmode_set 0x3000 s).1 <> - EBUSY.
Proof.
  cbv zeta. split; [reflexivity | ]. split; [reflexivity | ].
  vm_compute. discriminate.
Qed.

Lemma addrmode_set_reads_then_locks_witness :
  let busy_engine := ref_state DMA_TO_DEVICE false false 1 ∅ in
  let idle_engine :=
    ref_state DMA_TO_DEVICE false false 0 (<[0x3000 := mk_ucell false 7]> ∅) in
  ioctl_do_addrmode_set 0x3000 busy_engine = (- EFAULT, busy_engine) /\
  (ioctl_do_addrmode_set 0x3000 idle_engine).1 = 0 /\
  non_incr_addr (k_engine (ioctl_do_addrmode_set 0x3000 idle_engine).2) = true.
Proof.
  intros busy_engine idle_engine.
  destruct (addrmode_set_reads_then_locks (K := ref_kernel) 0x3000 busy_engine)
    as (Hfault & _).
  destruct (addrmode_set_reads_then_locks (K := ref_kernel) 0x3000 idle_engine)
    as (_ & _ & Hidle).
  split.
  - apply Hfault. vm_compute. reflexivity.
  - destruct Hidle as (Hrv & Hmode & _).
    + vm_compute. discriminate.
    + reflexivity.
    + split; [exact Hrv | exact Hmode].
Defined.

(** Two writes of 64 and 100 bytes from position 0 on a memory-mapped
    host-to-device engine leave the cursor at 164; in
    non-incrementing-address mode they leave it at 0. *)
Lemma position_cursor_advance_witness :
  let f := ref_file O_WRONLY in
  let incr := ref_state DMA_TO_DEVICE false false 0 ∅ in
  let fixed := ref_state DMA_TO_DEVICE false true 0 ∅ in
  @xfer_submit_keeps_mode Z ref_kernel /\
  (let r1 := char_sgdma_read_write f 0x8000 64 0 incr in
   let r2 := char_sgdma_read_write f 0x9000 100 r1.1.2 r1.2 in
   r1.1.1 = 64 /\ r2.1.1 = 100 /\ r2.1.2 = 0 + r1.1.1 + r2.1.1) /\
  (let r1 := char_sgdma_read_write f 0x8000 64 0 fixed in
   let r2 := char_sgdma_read_write f 0x9000 100 r1.1.2 r1.2 in
   r1.1.2 = 0 /\ r2.1.2 = 0).
Proof.
  intros f incr fixed.
  destruct (position_cursor_advance (K := ref_kernel) ref_xfer_submit_keeps_mode)
    as [_ Htwo].
  split; [exact ref_xfer_submit_keeps_mode | ]. split.
  - cbv zeta. split; [reflexivity | ]. split; [reflexivity | ].
    apply (Htwo f 0x8000 64 0x9000 100 0 incr); try reflexivity;
      vm_compute; discriminate.
  - apply (Htwo f 0x8000 64 0x9000 100 0 fixed); try reflexivity;
      vm_compute; discriminate.
Defined.

(** A device-to-host request against a host-to-device engine: at no step
    of the call does the store differ from the store at entry.  The
    host-to-device request at the same address does go through a store with
    the busy bit set. *)
Lemma submit_transfer_mode_mismatch_witness :
  let s := ref_state DMA_TO_DEVICE false false 0 (ref_request 1 0x8000 64 true) in
  let ok := ref_state DMA_TO_DEVICE false false 0 (ref_request 0 0x8000 64 true) in
  0 <= access_assert 0x1000 sizeof_transfer_request /\
  k_umem s !! (0x1000 + off_mode) = Some (mk_ucell true 1) /\
  ~ mode_matches 1 (dir (k_engine s)) /\
  ioctl_do_submit_transfer 0x1000 s = (- ENOTSUPP, s) /\
  busy (ioctl_do_submit_transfer 0x1000 s).2 = false /\
  (forall s', In s' (stores_during (ioctl_do_submit_transfer_steps 0x1000) s) ->
              s' = s) /\
  existsb busy (stores_during (ioctl_do_submit_transfer_steps 0x1000) s) = false /\
  existsb busy (stores_during (ioctl_do_submit_transfer_steps 0x1000) ok) = true.
Proof.
  intros s ok.
  assert (Hacc : 0 <= access_assert 0x1000 sizeof_transfer_request)
    by (vm_compute; discriminate).
  assert (Hcell : k_umem s !! (0x1000 + off_mode) = Some (mk_ucell true 1))
    by reflexivity.
  assert (Hmis : ~ mode_matches 1 (dir (k_engine s))).
  { apply cross_direction_mismatch; [discriminate | ].
    right. split; reflexivity. }
  destruct (submit_transfer_mode_mismatch (K := ref_kernel)
              0x1000 s (mk_ucell true 1) Hacc Hcell Hmis)
    as (Heq & Hbusy & _ & Hsame & _).
  split; [exact Hacc | ]. split; [exact Hcell | ]. split; [exact Hmis | ].
  split; [exact Heq | ]. split; [exact Hbusy | ]. split; [exact Hsame | ].
  split; vm_compute; reflexivity.
Defined.

Lemma ref_request_staged (mode buf len : Z) (w : bool) (d : dma_data_direction)
  (strm : bool) :
  (mode = 0 /\ d = DMA_TO_DEVICE) \/ (mode = 1 /\ d = DMA_FROM_DEVICE) ->
  request_staged (K := ref_kernel) 0x1000
    (ref_state d strm false 0 (ref_request mode buf len w)) buf len.
Proof.
  intros Hm. unfold request_staged.
  split; [vm_compute; discriminate | ].
  split; [exists (mk_ucell w mode); split; [reflexivity | exact Hm] | ].
  split; [reflexivity | ].
  split; [exists (mk_ucell w buf) | exists (mk_ucell w len)];
    split; reflexivity.
Defined.

(** A request whose buffer lies beyond the user address range. *)
Lemma submit_transfer_inaccessible_buffer_witness :
  let s := ref_state DMA_TO_DEVICE false false 0
             (ref_request 0 (2 ^ 47) 64 true) in
  let r := ioctl_do_submit_transfer 0x1000 s in
  request_staged 0x1000 s (2 ^ 47) 64 /\
  access_assert (2 ^ 47) 64 < 0 /\
  r.1 = - EFAULT /\
  tp_buf (transfer_params (k_engine r.2)) = 0 /\
  tp_length (transfer_params (k_engine r.2)) = 0 /\
  busy r.2 = false.
Proof.
  intros s r.
  assert (Hst : request_staged (K := ref_kernel) 0x1000 s (2 ^ 47) 64).
  { apply ref_request_staged. left. split; reflexivity. }
  assert (Hbad : access_assert (2 ^ 47) 64 < 0) by (vm_compute; reflexivity).
  destruct (submit_transfer_inaccessible_buffer (K := ref_kernel)
              0x1000 s (2 ^ 47) 64 Hst Hbad) as (Hrv & Hbuf & Hlen & Hbusy & _).
  split; [exact Hst | ]. split; [exact Hbad | ].
  split; [exact Hrv | ]. split; [exact Hbuf | ].
  split; [exact Hlen | exact Hbusy].
Defined.

(** Opening a host-to-device node read-only is refused; write-only access
    is admitted, also right after the refusal. *)
Lemma open_checks_access_mode_witness :
  let s := ref_state DMA_TO_DEVICE false false 0 ∅ in
  let r := char_sgdma_open ref_node (ref_file O_RDONLY) s in
  is_open s = false /\
  (dir (k_engine s) = DMA_TO_DEVICE /\ O_WRONLY = O_WRONLY) /\
  access_mode (ref_file O_RDONLY) <> O_WRONLY /\
  r.1.1 = - EACCES /\
  is_open r.2 = false /\
  0 <= (char_sgdma_open ref_node (ref_file O_WRONLY) r.2).1.1.
Proof.
  intros s r.
  assert (Hdir : dir (k_engine s) = DMA_TO_DEVICE /\ O_WRONLY = O_WRONLY)
    by (split; reflexivity).
  assert (Hne : access_mode (ref_file O_RDONLY) <> O_WRONLY) by discriminate.
  destruct (open_checks_access_mode (K := ref_kernel) ref_node
              (ref_file O_RDONLY) s O_WRONLY eq_refl (or_introl Hdir))
    as (_ & Hden).
  destruct (Hden Hne) as (Hrv & Hclear & _ & Hnext).
  split; [reflexivity | ]. split; [exact Hdir | ]. split; [exact Hne | ].
  split; [exact Hrv | ]. split; [exact Hclear | ].
  apply Hnext; [reflexivity | ].
  right. vm_compute. discriminate.
Defined.

(** A node that is open refuses a second open; after close it opens
    again. *)
Lemma open_is_exclusive_witness :
  let s := ref_state DMA_TO_DEVICE false false 2 ∅ in
  let f := ref_file O_WRONLY in
  let c := char_sgdma_close ref_node f s in
  is_open s = true /\
  (char_sgdma_open ref_node f s).1.1 = - EBUSY /\
  (char_sgdma_open ref_node f s).2 = s /\
  0 <= xcdev_check (private_data f) /\
  c.1 = 0 /\
  is_open c.2 = false /\
  0 <= (char_sgdma_open ref_node f c.2).1.1 /\
  is_open (char_sgdma_open ref_node f c.2).2 = true.
Proof.
  intros s f c.
  assert (Hchk : 0 <= xcdev_check (private_data f)) by (vm_compute; discriminate).
  destruct (open_is_exclusive (K := ref_kernel) ref_node f f s eq_refl)
    as (Hheld & _ & Hclose).
  destruct (Hclose Hchk) as (Hrv & Hclosed & Hagain).
  destruct Hagain as (Hok & Hopen).
  { left. split; reflexivity. }
  { right. vm_compute. discriminate. }
  split; [reflexivity | ].
  split; [now rewrite Hheld | ]. split; [now rewrite Hheld | ].
  split; [exact Hchk | ]. split; [exact Hrv | ]. split; [exact Hclosed | ].
  split; [exact Hok | exact Hopen].
Defined.

Lemma ref_reaches_submission (buf len : Z) (w : bool) :
  0 <= access_assert buf len ->
  reaches_submission (K := ref_kernel) 0x1000
    (ref_state DMA_TO_DEVICE false false 0 (ref_request 0 buf len w))
    (ref_gate buf len w).
Proof.
  intros Hok. exists buf, len.
  split; [apply ref_request_staged; left; split; reflexivity | ].
  split; [exact Hok | ].
  right. split; [reflexivity | ].
  exists (mk_ucell w 0x200). split; reflexivity.
Defined.

(** A request for 8192 bytes in a read-only page reaches the submission,
    which moves 4096 bytes; the command returns -EFAULT instead of 0 and
    the length field still holds 8192.  With an odd buffer address the
    submission fails with -EINVAL; the command returns -EFAULT instead of
    -EINVAL and the length field is not zeroed. *)
Lemma submit_transfer_readonly_request_counterexample :
  let s := ref_state DMA_TO_DEVICE false false 0 (ref_request 0 0x8000 8192 false) in
  let s' := ref_state DMA_TO_DEVICE false false 0 (ref_request 0 0x8001 8192 false) in
  (reaches_submission 0x1000 s (ref_gate 0x8000 8192 false) /\
   (xdma2_xfer_submit (ref_gate 0x8000 8192 false)).1 = 4096 /\
   (ioctl_do_submit_transfer 0x1000 s).1 = - EFAULT /\
   (ioctl_do_submit_transfer 0x1000 s).1 <> 0 /\
   k_umem (ioctl_do_submit_transfer 0x1000 s).2 !! (0x1000 + off_length)
   = Some (mk_ucell false 8192)) /\
  (reaches_submission 0x1000 s' (ref_gate 0x8001 8192 false) /\
   (xdma2_xfer_submit (ref_gate 0x8001 8192 false)).1 = - EINVAL /\
   (ioctl_do_submit_transfer 0x1000 s').1 = - EFAULT /\
   (ioctl_do_submit_transfer 0x1000 s').1 <> - EINVAL /\
   k_umem (ioctl_do_submit_transfer 0x1000 s').2 !! (0x1000 + off_length)
   = Some (mk_ucell false 8192)).
Proof.
  cbv zeta. split.
  - split; [apply ref_reaches_submission; vm_compute; discriminate | ].
    split; [reflexivity | ]. split; [reflexivity | ].
    split; [vm_compute; discriminate | reflexivity].
  - split; [apply ref_reaches_submission; vm_compute; discriminate | ].
    split; [reflexivity | ]. split; [reflexivity | ].
    split; [vm_compute; discriminate | reflexivity].
Qed.

(** The same request in a writable page: 4096 is stored in the length
    field and the command returns 0; with the odd buffer address 0 is
    stored and the command returns -EINVAL. *)
Lemma submit_transfer_write_back_witness :
  let s := ref_state DMA_TO_DEVICE false false 0 (ref_request 0 0x8000 8192 true) in
  let s' := ref_state DMA_TO_DEVICE false false 0 (ref_request 0 0x8001 8192 true) in
  let r := ioctl_do_submit_transfer 0x1000 s in
  let r' := ioctl_do_submit_transfer 0x1000 s' in
  reaches_submission 0x1000 s (ref_gate 0x8000 8192 true) /\
  reaches_submission 0x1000 s' (ref_gate 0x8001 8192 true) /\
  (r.1 = 0 /\ k_umem r.2 !! (0x1000 + off_length) = Some (mk_ucell true 4096)) /\
  (r'.1 = - EINVAL /\ k_umem r'.2 !! (0x1000 + off_length) = Some (mk_ucell true 0)) /\
  busy r.2 = false.
Proof.
  intros s s' r r'.
  assert (Hg : reaches_submission (K := ref_kernel) 0x1000 s
                 (ref_gate 0x8000 8192 true))
    by (apply ref_reaches_submission; vm_compute; discriminate).
  assert (Hg' : reaches_submission (K := ref_kernel) 0x1000 s'
                  (ref_gate 0x8001 8192 true))
    by (apply ref_reaches_submission; vm_compute; discriminate).
  destruct (submit_transfer_write_back (K := ref_kernel) 0x1000 s _ Hg)
    as (Hw & _ & Hbusy).
  destruct (submit_transfer_write_back (K := ref_kernel) 0x1000 s' _ Hg')
    as (Hw' & _ & _).
  destruct (Hw (mk_ucell true 8192) eq_refl eq_refl) as (Hpos & _).
  destruct (Hw' (mk_ucell true 8192) eq_refl eq_refl) as (_ & Hneg).
  split; [exact Hg | ]. split; [exact Hg' | ].
  split; [apply Hpos; vm_compute; discriminate | ].
  split; [ | exact Hbusy].
  destruct Hneg as (_ & Hrv & Hcell); [reflexivity | ].
  split; [apply Hrv; vm_compute; discriminate | exact Hcell].
Defined.

(** ** Further properties of the handlers *)

Section FurtherProperties.

Context {perf : Type} {K : Collaborators perf}.

(** *** More on the bits of the flags word *)

Lemma setbit_negative (w n : Z) : n < 0 -> Z.setbit w n = w.
Proof.
  intros Hn. unfold Z.setbit.
  replace (Z.shiftl 1 n) with 0; [apply Z.lor_0_r | ].
  symmetry. rewrite <- (Z.opp_involutive n), Z.shiftl_opp_r.
  apply Z.shiftr_eq_0; [lia | simpl; lia].
Qed.

Lemma testbit_setbit_other (w n m : Z) :
  m <> n -> Z.testbit (Z.setbit w n) m = Z.testbit w m.
Proof.
  intros Hne. destruct (Z.ltb_spec n 0) as [Hn | Hn].
  - now rewrite setbit_negative.
  - apply Z.setbit_neq; [assumption | congruence].
Qed.

Lemma testbit_clearbit_other (w n m : Z) :
  m <> n -> Z.testbit (Z.clearbit w n) m = Z.testbit w m.
Proof. intros Hne. apply Z.clearbit_neq. congruence. Qed.

Lemma clearbit_already (w n : Z) :
  Z.testbit w n = false -> Z.clearbit w n = w.
Proof.
  intros Hb. apply Z.bits_inj'. intros m _.
  rewrite Z.clearbit_eqb.
  destruct (Z.eqb_spec n m) as [-> | _]; cbn;
    [now rewrite Hb | apply andb_true_r].
Qed.

Lemma engine_flags_restored (s : kstate perf) (w : Z) :
  w = flags (k_engine s) ->
  {| k_engine := with_flags (k_engine s) w; k_umem := k_umem s |} = s.
Proof. intros ->. rewrite with_flags_same. apply kstate_eta. Qed.

(** *** The command dispatcher *)

(** X1. A command code that is none of the five known codes is answered
    with -ENOTTY, and the store is left as it was. *)
Theorem ioctl_unknown_command
  (filp : file) (cmd arg : Z) (s : kstate perf) :
  0 <= xcdev_check (private_data filp) ->
  cmd <> XDMA2_IOCTL_PERF_TEST ->
  cmd <> XDMA2_IOCTL_ADDRMODE_SET ->
  cmd <> XDMA2_IOCTL_ADDRMODE_GET ->
  cmd <> XDMA2_IOCTL_ALIGN_GET ->
  cmd <> XDMA2_IOCTL_SUBMIT_TRANSFER ->
  char_sgdma_ioctl filp cmd arg s = (- ENOTTY, s).
Proof.
  intros Hchk H1 H2 H3 H4 H5. unfold char_sgdma_ioctl.
  apply Z.ltb_ge in Hchk. rewrite Hchk.
  apply Z.eqb_neq in H1, H2, H3, H4, H5.
  now rewrite H1, H2, H3, H4, H5.
Qed.

(** X2. When the sanity check of the character device fails, the
    dispatcher returns the result of the check for every command code
    without running a handler, and close returns it without clearing the
    open bit: in both cases the store is left as it was. *)
Theorem bad_cdev_is_rejected
  (inode : inode) (filp : file) (cmd arg : Z) (s : kstate perf) :
  xcdev_check (private_data filp) < 0 ->
  char_sgdma_ioctl filp cmd arg s = (xcdev_check (private_data filp), s) /\
  char_sgdma_close inode filp s = (xcdev_check (private_data filp), s) /\
  is_open (char_sgdma_close inode filp s).2 = is_open s.
Proof.
  intros Hchk. apply Z.ltb_lt in Hchk.
  unfold char_sgdma_ioctl, char_sgdma_close. rewrite Hchk.
  repeat split.
Qed.

(** *** Close *)

(** X3. A close that passes the sanity check returns 0 and clears the
    open bit and nothing else: every other bit of the flags word (the busy
    bit among them, when it is another bit), every other field of the
    engine and the caller's memory are unchanged; closing again changes
    nothing more. *)
Theorem close_clears_only_open_bit
  (inode : inode) (filp : file) (s : kstate perf) :
  0 <= xcdev_check (private_data filp) ->
  let r := char_sgdma_close inode filp s in
  r.1 = 0 /\
  is_open r.2 = false /\
  (forall m : Z, m <> XENGINE_OPEN_BIT ->
     Z.testbit (flags (k_engine r.2)) m = Z.testbit (flags (k_engine s)) m) /\
  (XENGINE_BUSY_BIT <> XENGINE_OPEN_BIT -> busy r.2 = busy s) /\
  with_flags (k_engine r.2) (flags (k_engine s)) = k_engine s /\
  k_umem r.2 = k_umem s /\
  char_sgdma_close inode filp r.2 = (0, r.2).
Proof.
  intros Hchk r. subst r.
  rewrite (close_clears_open inode filp s Hchk). cbn [fst snd].
  split; [reflexivity | ].
  split; [unfold is_open, test_bit; cbn; apply testbit_clearbit | ].
  split; [intros m Hm; cbn; now apply testbit_clearbit_other | ].
  split; [intros Hne; unfold busy, test_bit; cbn;
          now apply testbit_clearbit_other | ].
  split; [cbn; now destruct (k_engine s) | ].
  split; [reflexivity | ].
  rewrite close_clears_open by assumption. cbn.
  rewrite (clearbit_already (Z.clearbit _ _)) by apply testbit_clearbit.
  reflexivity.
Qed.

(** *** The read-only commands *)

Lemma put_user_checked_stored (v ptr : Z) (s : kstate perf) (c : ucell) :
  access_ok ptr 4 = true ->
  k_umem s !! ptr = Some c -> writable c = true ->
  put_user v ptr s =
  (0, {| k_engine := k_engine s;
         k_umem := <[ptr := mk_ucell true v]> (k_umem s) |}).
Proof.
  intros Hok Hc Hw. unfold put_user. rewrite Hok.
  now apply put_user_stored with (c := c).
Qed.

Lemma put_user_checked_fault (v ptr : Z) (s : kstate perf) :
  access_ok ptr 4 = false \/
  (forall c, k_umem s !! ptr = Some c -> writable c = false) ->
  put_user v ptr s = (- EFAULT, s).
Proof.
  intros Hbad. unfold put_user.
  destruct (access_ok ptr 4); [ | reflexivity].
  destruct Hbad as [Hbad | Hbad]; [discriminate | ].
  now apply put_user_fault.
Qed.

(** X4. The address-mode query never changes the engine and does not
    look at the busy bit.  Given a writable [int] of the caller it stores
    1 there when the engine is in non-incrementing-address mode and 0
    otherwise, and returns 0; given a pointer outside the user range, an
    unmapped or a read-only one it returns -EFAULT and changes nothing. *)
Theorem addrmode_get_reports_mode (arg : Z) (s : kstate perf) :
  let r := ioctl_do_addrmode_get arg s in
  k_engine r.2 = k_engine s /\
  (forall c, access_ok arg 4 = true ->
     k_umem s !! arg = Some c -> writable c = true ->
     r.1 = 0 /\
     k_umem r.2 =
     <[arg := mk_ucell true (if non_incr_addr (k_engine s) then 1 else 0)]>
       (k_umem s)) /\
  (access_ok arg 4 = false \/
   (forall c, k_umem s !! arg = Some c -> writable c = false) ->
   r = (- EFAULT, s)).
Proof.
  cbn zeta. unfold ioctl_do_addrmode_get, get_engine, mbind, kern_bind, bind,
    mret, kern_ret, ret.
  split; [ | split].
  - kern_unfold. kern_cases; reflexivity.
  - intros c Hok Hc Hw.
    rewrite (put_user_checked_stored _ arg s c Hok Hc Hw). cbn.
    now destruct (non_incr_addr (k_engine s)).
  - intros Hbad. now rewrite (put_user_checked_fault _ arg s Hbad).
Qed.

(** X5. The alignment query never changes the engine and does not look
    at the busy bit.  Given a writable [int] of the caller it stores the
    engine's address alignment there and returns 0; given a pointer outside
    the user range, an unmapped or a read-only one it returns -EFAULT and
    changes nothing. *)
Theorem align_get_reports_alignment (arg : Z) (s : kstate perf) :
  let r := ioctl_do_align_get arg s in
  k_engine r.2 = k_engine s /\
  (forall c, access_ok arg 4 = true ->
     k_umem s !! arg = Some c -> writable c = true ->
     r.1 = 0 /\
     k_umem r.2 = <[arg := mk_ucell true (addr_align (k_engine s))]> (k_umem s)) /\
  (access_ok arg 4 = false \/
   (forall c, k_umem s !! arg = Some c -> writable c = false) ->
   r = (- EFAULT, s)).
Proof.
  cbn zeta. unfold ioctl_do_align_get, get_engine, mbind, kern_bind, bind.
  split; [ | split].
  - kern_unfold. kern_cases; reflexivity.
  - intros c Hok Hc Hw.
    now rewrite (put_user_checked_stored _ arg s c Hok Hc Hw).
  - intros Hbad. now rewrite (put_user_checked_fault _ arg s Hbad).
Qed.

(** X6. Set and query compose: after an address-mode command that read
    the value [v] from the caller on an idle engine, the address-mode query
    stores 0 in a writable [int] of the caller when [v] is 0 and 1 for any
    other [v]; both commands return 0. *)
Theorem addrmode_set_then_get
  (src dst : Z) (s : kstate perf) (c_src c_dst : ucell) :
  busy s = false ->
  access_ok src 4 = true -> k_umem s !! src = Some c_src ->
  access_ok dst 4 = true -> k_umem s !! dst = Some c_dst ->
  writable c_dst = true ->
  let set := ioctl_do_addrmode_set src s in
  let get := ioctl_do_addrmode_get dst set.2 in
  set.1 = 0 /\ get.1 = 0 /\
  k_umem get.2 !! dst =
  Some (mk_ucell true (if contents c_src =? 0 then 0 else 1)).
Proof.
  intros Hb Hsrc Hcs Hdst Hcd Hw set get.
  assert (Hset : set =
    (0, {| k_engine :=
             with_flags
               (with_non_incr_addr
                  (with_flags (k_engine s)
                     (Z.setbit (flags (k_engine s)) XENGINE_BUSY_BIT))
                  (negb (contents c_src =? 0)))
               (Z.clearbit (Z.setbit (flags (k_engine s)) XENGINE_BUSY_BIT)
                  XENGINE_BUSY_BIT);
           k_umem := k_umem s |})).
  { subst set. unfold busy, test_bit in Hb. kern_unfold.
    rewrite Hsrc. cbn. rewrite Hcs. cbn. rewrite Hb. reflexivity. }
  subst get. rewrite Hset. cbn [fst snd].
  unfold ioctl_do_addrmode_get, get_engine, mbind, kern_bind, bind,
    mret, kern_ret, ret.
  erewrite put_user_checked_stored; [ | exact Hdst | exact Hcd | exact Hw].
  cbn.
  split; [reflexivity | ]. split; [reflexivity | ].
  rewrite lookup_insert_eq. now destruct (contents c_src =? 0).
Qed.

(** *** Refusals and faults leave no trace *)

(** X7. While the busy bit is held, a byte-stream transfer, a
    performance test and a well-formed transfer command are each refused
    with -EBUSY and leave the store exactly as it was: the parameters staged
    by the transfer in flight, the flags word, the cursor and the caller's
    memory are untouched. *)
Theorem busy_engine_refuses_without_trace
  (filp : file) (buf count pos arg : Z) (s : kstate perf) :
  busy s = true ->
  char_sgdma_read_write filp buf count pos s = (- EBUSY, pos, s) /\
  ioctl_do_perf_test arg s = (- EBUSY, s) /\
  (forall cm,
     0 <= access_assert arg sizeof_transfer_request ->
     k_umem s !! (arg + off_mode) = Some cm ->
     mode_matches (contents cm) (dir (k_engine s)) ->
     ioctl_do_submit_transfer arg s = (- EBUSY, s)).
Proof.
  intros Hb. split; [now apply read_write_busy | ].
  unfold busy, test_bit in Hb. split.
  - unfold ioctl_do_perf_test, test_and_set_bit, mbind, kern_bind, bind,
      mret, kern_ret, ret.
    cbn. rewrite Hb. now rewrite set_busy_held.
  - intros cm Hacc Hm Hmatch.
    apply Z.ltb_ge in Hacc. apply mode_check_spec in Hmatch.
    unfold ioctl_do_submit_transfer, __get_user, test_and_set_bit, get_engine,
      mbind, kern_bind, bind, mret, kern_ret, ret.
    rewrite Hacc. cbn. rewrite Hm. cbn. rewrite Hmatch, Hb.
    now rewrite set_busy_held.
Qed.

(** X8. The transfer command validates the request before it touches
    anything: when the region of the request is not accessible it returns
    the negative result of the check, and when the mode field cannot be read
    it returns -EFAULT; in both cases the store is left as it was, whether
    or not the engine is busy. *)
Theorem submit_transfer_rejects_unreadable_request
  (arg : Z) (s : kstate perf) :
  (access_assert arg sizeof_transfer_request < 0 ->
   ioctl_do_submit_transfer arg s =
   (access_assert arg sizeof_transfer_request, s)) /\
  (0 <= access_assert arg sizeof_transfer_request ->
   k_umem s !! (arg + off_mode) = None ->
   ioctl_do_submit_transfer arg s = (- EFAULT, s)).
Proof.
  split.
  - intros Hbad. apply Z.ltb_lt in Hbad.
    unfold ioctl_do_submit_transfer. now rewrite Hbad.
  - intros Hok Hm. apply Z.ltb_ge in Hok.
    unfold ioctl_do_submit_transfer, __get_user, mbind, kern_bind, bind,
      mret, kern_ret, ret.
    rewrite Hok. cbn. now rewrite Hm.
Qed.

(** X9. A fault while the transfer command fetches the fields of the
    request, on an idle engine and after the mode has been accepted, makes
    it return -EFAULT without submitting anything: the flags word and the
    caller's memory are as before the call, and the engine differs from
    before only in the staged parameters.  An unreadable buffer field
    leaves a NULL buffer staged; an unreadable length field leaves the
    caller's buffer pointer and a zero length staged; an unreadable
    device-address field (memory-mapped engines) leaves the caller's buffer
    pointer and length staged with a zero device address. *)
Theorem submit_transfer_field_fault
  (arg : Z) (s : kstate perf) (cm : ucell) :
  0 <= access_assert arg sizeof_transfer_request ->
  k_umem s !! (arg + off_mode) = Some cm ->
  mode_matches (contents cm) (dir (k_engine s)) ->
  busy s = false ->
  (k_umem s !! (arg + off_buf) = None ->
   ioctl_do_submit_transfer arg s =
   (- EFAULT, {| k_engine := set_tp_buf 0 (k_engine s); k_umem := k_umem s |})) /\
  (forall cb,
     k_umem s !! (arg + off_buf) = Some cb ->
     k_umem s !! (arg + off_length) = None ->
     ioctl_do_submit_transfer arg s =
     (- EFAULT,
      {| k_engine := set_tp_length 0 (set_tp_buf (contents cb) (k_engine s));
         k_umem := k_umem s |})) /\
  (forall cb cl,
     k_umem s !! (arg + off_buf) = Some cb ->
     k_umem s !! (arg + off_length) = Some cl ->
     0 <= access_assert (contents cb) (contents cl) ->
     streaming (k_engine s) = false ->
     k_umem s !! (arg + off_axi_address) = None ->
     ioctl_do_submit_transfer arg s =
     (- EFAULT,
      {| k_engine :=
           set_tp_ep_addr 0
             (set_tp_length (contents cl)
                (set_tp_buf (contents cb) (k_engine s)));
         k_umem := k_umem s |})).
Proof.
  intros Hacc Hm Hmatch Hb.
  apply Z.ltb_ge in Hacc. apply mode_check_spec in Hmatch.
  unfold busy, test_bit in Hb.
  assert (Hfl : Z.clearbit (Z.setbit (flags (k_engine s)) XENGINE_BUSY_BIT)
                  XENGINE_BUSY_BIT = flags (k_engine s))
    by now apply clearbit_setbit.
  split; [ | split].
  - intros Hbuf.
    unfold ioctl_do_submit_transfer, __get_user, test_and_set_bit, clear_bit,
      modify_engine, get_engine, mbind, kern_bind, bind, mret, kern_ret, ret.
    rewrite Hacc. cbn. rewrite Hm. cbn. rewrite Hmatch, Hb. cbn.
    rewrite Hbuf. cbn. change (- EFAULT <? 0) with true. cbn. rewrite Hfl.
    destruct s as [e um]; destruct e; reflexivity.
  - intros cb Hbuf Hlen.
    unfold ioctl_do_submit_transfer, __get_user, test_and_set_bit, clear_bit,
      modify_engine, get_engine, mbind, kern_bind, bind, mret, kern_ret, ret.
    rewrite Hacc. cbn. rewrite Hm. cbn. rewrite Hmatch, Hb. cbn.
    rewrite Hbuf. cbn. rewrite Hlen. cbn.
    change (- EFAULT <? 0) with true. cbn. rewrite Hfl.
    destruct s as [e um]; destruct e; reflexivity.
  - intros cb cl Hbuf Hlen Hok Hs Haxi.
    rewrite (submit_transfer_staged arg s (contents cb) (contents cl)).
    + cbn zeta. apply Z.ltb_ge in Hok. rewrite Hok, Hs. cbn.
      unfold stage_request, __get_user, clear_bit, modify_engine,
        mbind, kern_bind, bind, mret, kern_ret, ret.
      cbn. rewrite Haxi. cbn. change (- EFAULT <? 0) with true. cbn.
      rewrite Hfl.
      destruct s as [e um]; destruct e; reflexivity.
    + unfold request_staged. apply Z.ltb_ge in Hacc.
      apply mode_check_spec in Hmatch.
      split; [exact Hacc | ]. split; [now exists cm | ].
      split; [exact Hb | ]. split; [now exists cb | now exists cl].
Qed.

(** X10. On a streaming engine the device address of the request is
    neither read nor staged: a staged request with an accessible buffer
    goes to the submission whatever the device-address field holds, and the
    submission finds the device address that was in the engine before the
    call. *)
Theorem submit_transfer_streaming_skips_address
  (arg : Z) (s : kstate perf) (buf len : Z) :
  request_staged arg s buf len ->
  0 <= access_assert buf len ->
  streaming (k_engine s) = true ->
  ioctl_do_submit_transfer arg s
  = submit_and_report arg (stage_request buf len s) /\
  transfer_params (k_engine (stage_request buf len s))
  = mk_params buf len (tp_ep_addr (transfer_params (k_engine s))).
Proof.
  intros Hst Hok Hs. split; [ | reflexivity].
  apply submit_transfer_at_gate. exists buf, len.
  split; [exact Hst | ]. split; [exact Hok | ]. left. now split.
Qed.

(** *** The performance test when the configuration is copied in full *)

(** X11. On an idle engine, when the configuration is copied in full the
    performance run is started on it with the busy bit held.  A negative
    result of the run is returned as it is and nothing is copied back: the
    caller's memory is as the run left it.  After a non-negative result the
    record of the engine is copied back: when that copy is complete the
    command returns 0 and the caller's memory is what the copy produced.
    Either way the engine at return is the engine as the run left it, with
    only the busy bit cleared. *)
Theorem perf_test_full_copy
  (arg : Z) (s : kstate perf) (cfg : perf) :
  busy s = false ->
  copy_from_user (k_umem s) arg (xdma2_perf (k_engine s)) = (0%N, cfg) ->
  let start :=
    {| k_engine :=
         with_xdma2_perf
           (with_flags (k_engine s)
              (Z.setbit (flags (k_engine s)) XENGINE_BUSY_BIT)) cfg;
       k_umem := k_umem s |} in
  let run := xdma2_performance_submit start in
  let released :=
    with_flags (k_engine run.2)
      (Z.clearbit (flags (k_engine run.2)) XENGINE_BUSY_BIT) in
  let r := ioctl_do_perf_test arg s in
  (run.1 < 0 ->
   r = (run.1, {| k_engine := released; k_umem := k_umem run.2 |})) /\
  (forall um',
     0 <= run.1 ->
     copy_to_user (k_umem run.2) arg (xdma2_perf (k_engine run.2)) = (0%N, um') ->
     r = (0, {| k_engine := released; k_umem := um' |})).
Proof.
  intros Hb Hcopy start run released r.
  assert (Hr : r = perf_test_after_copy arg start).
  { subst r. unfold ioctl_do_perf_test, perf_test_after_copy.
    unfold busy, test_bit in Hb.
    unfold mbind, kern_bind, bind, test_and_set_bit, copy_perf_from_user.
    cbn. rewrite Hb. cbn. rewrite Hcopy. reflexivity. }
  rewrite Hr. unfold perf_test_after_copy, mbind, kern_bind, bind.
  fold run. subst released. destruct run as [rv s2]. cbn [fst snd].
  split.
  - intros Hneg. apply Z.ltb_lt in Hneg. rewrite Hneg. reflexivity.
  - intros um' Hok Hback. apply Z.ltb_ge in Hok. rewrite Hok.
    unfold copy_perf_to_user. rewrite Hback. reflexivity.
Qed.

(** *** Open *)

Lemma open_free_engine (inode : inode) (filp : file) (s : kstate perf) :
  is_open s = false ->
  access_fits filp (k_engine s) ->
  let f := restrict_mode (dir (k_engine s)) inode filp in
  let opened :=
    with_flags (k_engine s) (Z.setbit (flags (k_engine s)) XENGINE_OPEN_BIT) in
  char_sgdma_open inode filp s =
  if streaming (k_engine s) then
    (0, stream_open inode f,
     {| k_engine :=
          with_eop_flush opened
            (negb (Z.land (f_flags (stream_open inode f)) O_TRUNC =? 0));
        k_umem := k_umem s |})
  else if generic_file_open inode f <? 0 then
    (generic_file_open inode f, f, s)
  else
    (generic_file_open inode f, f,
     {| k_engine :=
          with_non_incr_addr opened
            (negb (Z.land (f_flags filp) O_TRUNC =? 0));
        k_umem := k_umem s |}).
Proof.
  intros Ho Hfit. unfold is_open, test_bit in Ho.
  unfold access_fits, access_mode in Hfit. unfold restrict_mode.
  unfold char_sgdma_open. kern_unfold. cbn. rewrite Ho. cbn.
  destruct Hfit as [[Hd Hacc] | [Hd Hacc]]; rewrite Hd; cbn;
    rewrite andb_false_r; rewrite Hacc; cbn;
    destruct (streaming (k_engine s)) eqn:Hs; cbn; try reflexivity;
    match goal with
    | |- context [generic_file_open ?i ?f <? 0] =>
        destruct (generic_file_open i f <? 0) eqn:Hg
    end; cbn; rewrite ?Hg; cbn; try reflexivity;
    rewrite clearbit_setbit by assumption;
    destruct s as [e um]; destruct e; reflexivity.
Qed.

(** X12. A successful open on a free engine sets the open bit and
    derives one mode from the truncate flag of the file: on a streaming
    engine the end-of-packet flush flag (read from the file as
    [stream_open] left it), the address mode being kept; on a memory-mapped
    engine the non-incrementing-address mode, the flush flag being kept.
    Direction, streaming, alignment, staged parameters, performance record
    and the caller's memory are unchanged. *)
Theorem open_derives_mode_from_truncate
  (inode : inode) (filp : file) (s : kstate perf) :
  is_open s = false ->
  access_fits filp (k_engine s) ->
  file_check_passes inode filp (k_engine s) ->
  let r := char_sgdma_open inode filp s in
  let e := k_engine s in
  let e' := k_engine r.2 in
  flags e' = Z.setbit (flags e) XENGINE_OPEN_BIT /\
  (streaming e = true ->
   eop_flush e' = negb (Z.land (f_flags r.1.2) O_TRUNC =? 0) /\
   non_incr_addr e' = non_incr_addr e) /\
  (streaming e = false ->
   non_incr_addr e' = negb (Z.land (f_flags filp) O_TRUNC =? 0) /\
   eop_flush e' = eop_flush e) /\
  dir e' = dir e /\ streaming e' = streaming e /\
  addr_align e' = addr_align e /\
  transfer_params e' = transfer_params e /\
  xdma2_perf e' = xdma2_perf e /\
  k_umem r.2 = k_umem s.
Proof.
  intros Ho Hfit Hchk r e e'. subst r e e'.
  rewrite (open_free_engine inode filp s Ho Hfit). cbn zeta.
  unfold file_check_passes in Hchk.
  destruct (streaming (k_engine s)) eqn:Hs.
  - cbn. repeat split; intros; first [reflexivity | congruence].
  - destruct Hchk as [Hchk | Hchk]; [discriminate | ].
    apply Z.ltb_ge in Hchk. rewrite Hchk. cbn.
    repeat split; intros; first [reflexivity | congruence].
Qed.

Lemma land_lnot_bit (m k : Z) (b : Z) :
  0 <= b ->
  Z.testbit (Z.land m (Z.lnot (2 ^ b))) k
  = Z.testbit m k && negb (k =? b).
Proof.
  intros Hb. rewrite Z.land_spec.
  destruct (Z.ltb_spec k 0) as [Hk | Hk].
  - now rewrite !Z.testbit_neg_r by assumption.
  - rewrite Z.lnot_spec by assumption. f_equal. f_equal.
    destruct (Z.eqb_spec k b) as [-> | Hne].
    + now apply Z.pow2_bits_true.
    + apply Z.pow2_bits_false. congruence.
Qed.

(** X13. The file that a successful open on a memory-mapped engine
    returns is bound to the character device of the node, keeps its flags,
    and has lost exactly one mode bit: the read bit (bit 0) on a
    host-to-device engine, the write bit (bit 1) on a device-to-host
    engine.  On a streaming engine the returned file is that file passed
    through [stream_open]. *)
Theorem open_restricts_file_mode
  (inode : inode) (filp : file) (s : kstate perf) :
  is_open s = false ->
  access_fits filp (k_engine s) ->
  file_check_passes inode filp (k_engine s) ->
  let f := restrict_mode (dir (k_engine s)) inode filp in
  let lost := if dir_eqb (dir (k_engine s)) DMA_TO_DEVICE then 0 else 1 in
  (char_sgdma_open inode filp s).1.2
  = (if streaming (k_engine s) then stream_open inode f else f) /\
  private_data f = Some (i_cdev inode) /\
  f_flags f = f_flags filp /\
  forall k : Z,
    Z.testbit (f_mode f) k = Z.testbit (f_mode filp) k && negb (k =? lost).
Proof.
  intros Ho Hfit Hchk f lost.
  split.
  - rewrite (open_free_engine inode filp s Ho Hfit). cbn zeta. fold f.
    unfold file_check_passes in Hchk. fold f in Hchk.
    destruct (streaming (k_engine s)); [reflexivity | ].
    destruct Hchk as [Hchk | Hchk]; [discriminate | ].
    apply Z.ltb_ge in Hchk. now rewrite Hchk.
  - split; [reflexivity | ]. split; [reflexivity | ].
    intros k. subst f lost. unfold restrict_mode. cbn.
    destruct (dir_eqb (dir (k_engine s)) DMA_TO_DEVICE).
    + apply (land_lnot_bit (f_mode filp) k 0). lia.
    + apply (land_lnot_bit (f_mode filp) k 1). lia.
Qed.

(** X14. An open that fails on a free engine of either direction leaves
    no trace: whatever made it fail (the access mode, or the kernel's file
    check on a memory-mapped engine, whose negative result is what open
    then returns), the store at return is the store before the call, the
    open bit clear. *)
Theorem failed_open_leaves_no_trace
  (inode : inode) (filp : file) (s : kstate perf) :
  is_open s = false ->
  dir (k_engine s) = DMA_TO_DEVICE \/ dir (k_engine s) = DMA_FROM_DEVICE ->
  let r := char_sgdma_open inode filp s in
  (r.1.1 < 0 -> r.2 = s) /\
  (access_fits filp (k_engine s) ->
   streaming (k_engine s) = false ->
   generic_file_open inode (restrict_mode (dir (k_engine s)) inode filp) < 0 ->
   r.1.1 = generic_file_open inode (restrict_mode (dir (k_engine s)) inode filp)).
Proof.
  intros Ho Hd r. subst r.
  set (want := if dir_eqb (dir (k_engine s)) DMA_TO_DEVICE
               then O_WRONLY else O_RDONLY).
  assert (Hwant : (dir (k_engine s) = DMA_TO_DEVICE /\ want = O_WRONLY) \/
                  (dir (k_engine s) = DMA_FROM_DEVICE /\ want = O_RDONLY)).
  { subst want. destruct Hd as [Hd | Hd]; rewrite Hd; cbn; auto. }
  split.
  - destruct (Z.eq_dec (access_mode filp) want) as [Heq | Hne].
    + assert (Hfit : access_fits filp (k_engine s)).
      { unfold access_fits.
        destruct Hwant as [[Hd' Hw] | [Hd' Hw]]; rewrite Hw in Heq; auto. }
      rewrite (open_free_engine inode filp s Ho Hfit). cbn zeta.
      destruct (streaming (k_engine s)); cbn; [lia | ].
      destruct (Z.ltb_spec
                  (generic_file_open inode
                     (restrict_mode (dir (k_engine s)) inode filp)) 0);
        cbn; [reflexivity | lia].
    + now rewrite (open_denied inode filp s want Ho Hwant Hne).
  - intros Hfit Hs Hneg.
    rewrite (open_free_engine inode filp s Ho Hfit). cbn zeta. rewrite Hs.
    apply Z.ltb_lt in Hneg. now rewrite Hneg.
Qed.

(** X15. Open and close work on the open bit only: when the busy bit
    is another bit of the flags word, no open (admitted, refused or failed)
    and no close changes it, so a transfer in flight keeps its exclusivity
    across them. *)
Theorem open_and_close_keep_busy_bit
  (inode : inode) (filp : file) (s : kstate perf) :
  XENGINE_BUSY_BIT <> XENGINE_OPEN_BIT ->
  busy (char_sgdma_open inode filp s).2 = busy s /\
  busy (char_sgdma_close inode filp s).2 = busy s.
Proof.
  intros Hne. unfold busy, test_bit. split.
  - unfold char_sgdma_open. kern_unfold. kern_cases;
      rewrite ?testbit_clearbit_other, ?testbit_setbit_other by assumption;
      reflexivity.
  - unfold char_sgdma_close. kern_unfold. kern_cases;
      rewrite ?testbit_clearbit_other by assumption; reflexivity.
Qed.

(** X16. Open and close are inverse on the flags word: after a
    successful open on a free engine, a close of the returned file that
    passes the sanity check returns 0 and leaves the flags word exactly as
    it was before the open. *)
Theorem open_then_close_restores_flags
  (inode : inode) (filp : file) (s : kstate perf) :
  is_open s = false ->
  access_fits filp (k_engine s) ->
  file_check_passes inode filp (k_engine s) ->
  let o := char_sgdma_open inode filp s in
  0 <= xcdev_check (private_data o.1.2) ->
  let c := char_sgdma_close inode o.1.2 o.2 in
  0 <= o.1.1 /\ c.1 = 0 /\ flags (k_engine c.2) = flags (k_engine s).
Proof.
  intros Ho Hfit Hfile o Hchk c.
  destruct (open_admitted inode filp s Ho Hfit Hfile) as (Hrv & _ & Hfl).
  fold o in Hrv, Hfl. split; [exact Hrv | ].
  subst c. rewrite (close_clears_open inode o.1.2 o.2 Hchk). cbn.
  split; [reflexivity | ]. rewrite Hfl. now apply clearbit_setbit.
Qed.

(** *** The address mode and the cursor *)

(** X17. The address-mode command governs the cursor of the transfers
    that follow it.  On an idle memory-mapped engine, provided the
    submission routine leaves the transfer mode alone: after the command
    has read the value [v], a byte-stream transfer that moves [rv >= 0]
    bytes leaves the cursor at [pos + rv] when [v] is 0 and at [pos] for any
    other [v]. *)
Theorem addrmode_set_governs_cursor
  (arg : Z) (filp : file) (buf count pos : Z) (s : kstate perf) (c : ucell) :
  xfer_submit_keeps_mode ->
  busy s = false ->
  streaming (k_engine s) = false ->
  access_ok arg 4 = true ->
  k_umem s !! arg = Some c ->
  let r := char_sgdma_read_write filp buf count pos
             (ioctl_do_addrmode_set arg s).2 in
  0 <= r.1.1 -> LLONG_MIN <= pos -> pos + r.1.1 <= LLONG_MAX ->
  r.1.2 = if contents c =? 0 then pos + r.1.1 else pos.
Proof.
  intros Hk Hb Hs Hok Hc r Hrv Hlo Hhi. subst r.
  rewrite (read_write_cursor filp buf count pos _ Hk).
  assert (Hmode :
    streaming (k_engine (ioctl_do_addrmode_set arg s).2) = false /\
    non_incr_addr (k_engine (ioctl_do_addrmode_set arg s).2)
    = negb (contents c =? 0)).
  { unfold busy, test_bit in Hb. kern_unfold.
    rewrite Hok. cbn. rewrite Hc. cbn. rewrite Hb. cbn. now split. }
  destruct Hmode as [-> ->]. cbn.
  destruct (contents c =? 0); cbn; [ | reflexivity].
  destruct (Z.ltb_spec 0
              (char_sgdma_read_write filp buf count pos
                 (ioctl_do_addrmode_set arg s).2).1.1);
    [apply to_loff_t_in_range | ]; lia.
Qed.

(** X18. The truncate flag given at open governs the cursor of the
    transfers that follow.  After a successful open of a memory-mapped
    engine, provided the submission routine leaves the transfer mode alone:
    a byte-stream transfer that moves [rv >= 0] bytes leaves the cursor at
    [pos] when the file was opened with O_TRUNC and at [pos + rv] when it
    was not. *)
Theorem open_truncate_governs_cursor
  (inode : inode) (filp : file) (buf count pos : Z) (s : kstate perf) :
  xfer_submit_keeps_mode ->
  is_open s = false ->
  access_fits filp (k_engine s) ->
  streaming (k_engine s) = false ->
  0 <= generic_file_open inode (restrict_mode (dir (k_engine s)) inode filp) ->
  let o := char_sgdma_open inode filp s in
  let r := char_sgdma_read_write o.1.2 buf count pos o.2 in
  0 <= r.1.1 -> LLONG_MIN <= pos -> pos + r.1.1 <= LLONG_MAX ->
  r.1.2 = if Z.land (f_flags filp) O_TRUNC =? 0 then pos + r.1.1 else pos.
Proof.
  intros Hk Ho Hfit Hs Hgen o r Hrv Hlo Hhi. subst r.
  rewrite (read_write_cursor o.1.2 buf count pos _ Hk).
  assert (Hmode :
    streaming (k_engine o.2) = false /\
    non_incr_addr (k_engine o.2) = negb (Z.land (f_flags filp) O_TRUNC =? 0)).
  { subst o. rewrite (open_free_engine inode filp s Ho Hfit). cbn zeta.
    rewrite Hs. apply Z.ltb_ge in Hgen. rewrite Hgen. cbn. now split. }
  destruct Hmode as [-> ->]. cbn.
  destruct (Z.land (f_flags filp) O_TRUNC =? 0); cbn; [ | reflexivity].
  destruct (Z.ltb_spec 0 (char_sgdma_read_write o.1.2 buf count pos o.2).1.1);
    [apply to_loff_t_in_range | ]; lia.
Qed.

(** *** What a byte-stream transfer stages and leaves behind *)

(** X19. A byte-stream transfer on an idle engine enters the submission
    with the caller's buffer and count staged, and with the cursor staged as
    device address on a memory-mapped engine (a streaming engine keeps the
    device address it had).  The handler does not touch the caller's memory
    and does no clean-up of its own: at return the staged parameters and the
    caller's memory are as the submission left them, so that after a
    submission that leaves the parameters alone the caller's buffer pointer
    and count are still in the engine. *)
Theorem read_write_stages_and_keeps_parameters
  (filp : file) (buf count pos : Z) (s : kstate perf) :
  busy s = false ->
  let g := stage_read_write buf count pos s in
  let sub := xdma2_xfer_submit g in
  let r := char_sgdma_read_write filp buf count pos s in
  transfer_params (k_engine g)
  = mk_params buf count
      (if streaming (k_engine s)
       then tp_ep_addr (transfer_params (k_engine s)) else pos) /\
  k_umem g = k_umem s /\
  r.1.1 = sub.1 /\
  transfer_params (k_engine r.2) = transfer_params (k_engine sub.2) /\
  k_umem r.2 = k_umem sub.2 /\
  (transfer_params (k_engine sub.2) = transfer_params (k_engine g) ->
   tp_buf (transfer_params (k_engine r.2)) = buf /\
   tp_length (transfer_params (k_engine r.2)) = count).
Proof.
  intros Hb g sub r.
  assert (Hg : transfer_params (k_engine g)
               = mk_params buf count
                   (if streaming (k_engine s)
                    then tp_ep_addr (transfer_params (k_engine s)) else pos)).
  { subst g. unfold stage_read_write. cbn.
    destruct (streaming (k_engine s)) eqn:Hs; cbn; rewrite ?Hs; reflexivity. }
  subst r. rewrite (read_write_idle filp buf count pos s Hb). cbn zeta.
  fold g. fold sub. cbn [fst snd].
  split; [exact Hg | ]. split; [reflexivity | ]. split; [reflexivity | ].
  split; [reflexivity | ]. split; [reflexivity | ].
  intros Hkeep. cbn. rewrite Hkeep, Hg. now split.
Qed.

End FurtherProperties.

(** ** The further properties on the reference configuration *)

(** Command code 9 is not a command. *)
Lemma ioctl_unknown_command_witness :
  let s := ref_state DMA_TO_DEVICE false false 0 ∅ in
  0 <= xcdev_check (private_data (ref_file O_WRONLY)) /\
  char_sgdma_ioctl (ref_file O_WRONLY) 9 0x1000 s = (- ENOTTY, s).
Proof.
  intros s.
  assert (Hchk : 0 <= xcdev_check (private_data (ref_file O_WRONLY)))
    by (vm_compute; discriminate).
  split; [exact Hchk | ].
  apply (ioctl_unknown_command (K := ref_kernel)); [exact Hchk | ..];
    discriminate.
Defined.

(** A file that is bound to no character device. *)
Lemma bad_cdev_is_rejected_witness :
  let s := ref_state DMA_TO_DEVICE false false 2 ∅ in
  let f := {| f_flags := O_WRONLY; f_mode := 3; private_data := None |} in
  xcdev_check (private_data f) < 0 /\
  char_sgdma_ioctl f 5 0x1000 s = (- EINVAL, s) /\
  char_sgdma_close ref_node f s = (- EINVAL, s) /\
  is_open (char_sgdma_close ref_node f s).2 = true.
Proof.
  intros s f.
  assert (Hchk : xcdev_check (private_data f) < 0) by (vm_compute; reflexivity).
  destruct (bad_cdev_is_rejected (K := ref_kernel) ref_node f 5 0x1000 s Hchk)
    as (Hioctl & Hclose & Hopen).
  split; [exact Hchk | ]. split; [exact Hioctl | ].
  split; [exact Hclose | exact Hopen].
Defined.

(** Closing an open engine that is busy: flags 3 become flags 1. *)
Lemma close_clears_only_open_bit_witness :
  let s := ref_state DMA_TO_DEVICE false false 3 ∅ in
  let r := char_sgdma_close ref_node (ref_file O_WRONLY) s in
  0 <= xcdev_check (private_data (ref_file O_WRONLY)) /\
  r.1 = 0 /\ is_open r.2 = false /\ busy r.2 = true /\
  flags (k_engine r.2) = 1.
Proof.
  intros s r.
  assert (Hchk : 0 <= xcdev_check (private_data (ref_file O_WRONLY)))
    by (vm_compute; discriminate).
  destruct (close_clears_only_open_bit (K := ref_kernel) ref_node
              (ref_file O_WRONLY) s Hchk)
    as (Hrv & Hopen & _ & Hbusy & _).
  split; [exact Hchk | ]. split; [exact Hrv | ]. split; [exact Hopen | ].
  split; [ | reflexivity].
  fold r in Hbusy. rewrite Hbusy; [reflexivity | discriminate].
Defined.

(** The mode and the alignment of a busy engine in
    non-incrementing-address mode, queried into a writable cell. *)
Lemma addrmode_get_reports_mode_witness :
  let s := ref_state DMA_TO_DEVICE false true 1
             (<[0x3000 := mk_ucell true 7]> ∅) in
  let r := ioctl_do_addrmode_get 0x3000 s in
  r.1 = 0 /\ k_umem r.2 !! 0x3000 = Some (mk_ucell true 1) /\
  k_engine r.2 = k_engine s /\
  ioctl_do_addrmode_get 0x4000 s = (- EFAULT, s).
Proof.
  intros s r.
  destruct (addrmode_get_reports_mode (K := ref_kernel) 0x3000 s)
    as (Heng & Hst & _).
  destruct (addrmode_get_reports_mode (K := ref_kernel) 0x4000 s)
    as (_ & _ & Hfault).
  destruct (Hst (mk_ucell true 7) eq_refl eq_refl eq_refl) as (Hrv & Hmem).
  split; [exact Hrv | ].
  split; [fold r in Hmem; rewrite Hmem; reflexivity | ].
  split; [exact Heng | ].
  apply Hfault. right. intros c Hc. discriminate Hc.
Defined.

Lemma align_get_reports_alignment_witness :
  let s := ref_state DMA_TO_DEVICE false true 1
             (<[0x3000 := mk_ucell true 7]> ∅) in
  let r := ioctl_do_align_get 0x3000 s in
  r.1 = 0 /\ k_umem r.2 !! 0x3000 = Some (mk_ucell true 1) /\
  k_engine r.2 = k_engine s /\
  ioctl_do_align_get 0x4000 s = (- EFAULT, s).
Proof.
  intros s r.
  destruct (align_get_reports_alignment (K := ref_kernel) 0x3000 s)
    as (Heng & Hst & _).
  destruct (align_get_reports_alignment (K := ref_kernel) 0x4000 s)
    as (_ & _ & Hfault).
  destruct (Hst (mk_ucell true 7) eq_refl eq_refl eq_refl) as (Hrv & Hmem).
  split; [exact Hrv | ].
  split; [fold r in Hmem; rewrite Hmem; reflexivity | ].
  split; [exact Heng | ].
  apply Hfault. right. intros c Hc. discriminate Hc.
Defined.

(** Setting the mode with the value 7 and querying it yields 1. *)
Lemma addrmode_set_then_get_witness :
  let s := ref_state DMA_TO_DEVICE false false 0
             (<[0x3000 := mk_ucell false 7]> (<[0x3008 := mk_ucell true 0]> ∅)) in
  busy s = false /\
  access_ok 0x3000 4 = true /\
  k_umem s !! 0x3000 = Some (mk_ucell false 7) /\
  access_ok 0x3008 4 = true /\
  k_umem s !! 0x3008 = Some (mk_ucell true 0) /\
  k_umem (ioctl_do_addrmode_get 0x3008 (ioctl_do_addrmode_set 0x3000 s).2).2
    !! 0x3008 = Some (mk_ucell true 1).
Proof.
  intros s.
  destruct (addrmode_set_then_get (K := ref_kernel) 0x3000 0x3008 s
              (mk_ucell false 7) (mk_ucell true 0)
              eq_refl eq_refl eq_refl eq_refl eq_refl eq_refl)
    as (_ & _ & Hcell).
  repeat (split; [reflexivity | ]). exact Hcell.
Defined.

Lemma busy_engine_refuses_without_trace_witness :
  busy ref_busy_state = true /\
  char_sgdma_read_write (ref_file O_WRONLY) 0x8000 8192 0 ref_busy_state
  = (- EBUSY, 0, ref_busy_state) /\
  ioctl_do_perf_test 0x1000 ref_busy_state = (- EBUSY, ref_busy_state) /\
  ioctl_do_submit_transfer 0x1000 ref_busy_state = (- EBUSY, ref_busy_state).
Proof.
  destruct (busy_engine_refuses_without_trace (K := ref_kernel)
              (ref_file O_WRONLY) 0x8000 8192 0 0x1000 ref_busy_state eq_refl)
    as (Hrw & Hperf & Hsub).
  split; [reflexivity | ]. split; [exact Hrw | ]. split; [exact Hperf | ].
  apply (Hsub (mk_ucell true 0)).
  - vm_compute. discriminate.
  - reflexivity.
  - left. split; reflexivity.
Defined.

(** A request pointer beyond the user range, and a request whose page is
    not mapped. *)
Lemma submit_transfer_rejects_unreadable_request_witness :
  let s := ref_state DMA_TO_DEVICE false false 0 ∅ in
  ioctl_do_submit_transfer (2 ^ 47) s = (- EFAULT, s) /\
  ioctl_do_submit_transfer 0x1000 s = (- EFAULT, s).
Proof.
  intros s.
  destruct (submit_transfer_rejects_unreadable_request (K := ref_kernel)
              (2 ^ 47) s) as (Hregion & _).
  destruct (submit_transfer_rejects_unreadable_request (K := ref_kernel)
              0x1000 s) as (_ & Hmode).
  split.
  - apply Hregion. vm_compute. reflexivity.
  - apply Hmode; [vm_compute; discriminate | reflexivity].
Defined.

(** A request whose device-address field is not mapped, on a
    memory-mapped engine: the fault leaves buffer and length staged. *)
Lemma submit_transfer_field_fault_witness :
  let um : gmap Z ucell :=
    <[0x1000 := mk_ucell true 0x8000]>
    (<[0x1008 := mk_ucell true 64]> (<[0x1018 := mk_ucell true 0]> ∅)) in
  let s := ref_state DMA_TO_DEVICE false false 0 um in
  let r := ioctl_do_submit_transfer 0x1000 s in
  0 <= access_assert 0x1000 sizeof_transfer_request /\
  k_umem s !! (0x1000 + off_mode) = Some (mk_ucell true 0) /\
  mode_matches 0 (dir (k_engine s)) /\
  busy s = false /\
  r.1 = - EFAULT /\
  transfer_params (k_engine r.2) = mk_params 0x8000 64 0 /\
  flags (k_engine r.2) = 0.
Proof.
  intros um s r.
  assert (Hacc : 0 <= access_assert 0x1000 sizeof_transfer_request)
    by (vm_compute; discriminate).
  assert (Hmatch : mode_matches 0 (dir (k_engine s)))
    by (left; split; reflexivity).
  destruct (submit_transfer_field_fault (K := ref_kernel) 0x1000 s
              (mk_ucell true 0) Hacc eq_refl Hmatch eq_refl)
    as (_ & _ & Haxi).
  assert (Hr : r = (- EFAULT,
                    {| k_engine :=
                         set_tp_ep_addr 0
                           (set_tp_length 64 (set_tp_buf 0x8000 (k_engine s)));
                       k_umem := k_umem s |})).
  { apply (Haxi (mk_ucell true 0x8000) (mk_ucell true 64));
      try reflexivity; vm_compute; discriminate. }
  split; [exact Hacc | ]. split; [reflexivity | ]. split; [exact Hmatch | ].
  split; [reflexivity | ]. rewrite Hr. repeat split.
Defined.

(** The same request on a streaming engine is submitted. *)
Lemma submit_transfer_streaming_skips_address_witness :
  let um : gmap Z ucell :=
    <[0x1000 := mk_ucell true 0x8000]>
    (<[0x1008 := mk_ucell true 64]> (<[0x1018 := mk_ucell true 0]> ∅)) in
  let s := ref_state DMA_TO_DEVICE true false 0 um in
  let r := ioctl_do_submit_transfer 0x1000 s in
  request_staged 0x1000 s 0x8000 64 /\
  0 <= access_assert 0x8000 64 /\
  streaming (k_engine s) = true /\
  r.1 = 0 /\
  k_umem r.2 !! 0x1008 = Some (mk_ucell true 64).
Proof.
  intros um s r.
  assert (Hst : request_staged (K := ref_kernel) 0x1000 s 0x8000 64).
  { unfold request_staged.
    split; [vm_compute; discriminate | ].
    split; [exists (mk_ucell true 0);
            split; [reflexivity | left; split; reflexivity] | ].
    split; [reflexivity | ].
    split; [exists (mk_ucell true 0x8000) | exists (mk_ucell true 64)];
      split; reflexivity. }
  assert (Hok : 0 <= access_assert 0x8000 64) by (vm_compute; discriminate).
  destruct (submit_transfer_streaming_skips_address (K := ref_kernel)
              0x1000 s 0x8000 64 Hst Hok eq_refl) as (Heq & _).
  split; [exact Hst | ]. split; [exact Hok | ]. split; [reflexivity | ].
  subst r. rewrite Heq. split; reflexivity.
Defined.

(** A performance test with a mapped, writable configuration: the run
    counts itself and the record is copied back. *)
Lemma perf_test_full_copy_witness :
  let s := ref_state DMA_TO_DEVICE false false 0
             (<[0x2000 := mk_ucell true 5]> ∅) in
  let r := ioctl_do_perf_test 0x2000 s in
  busy s = false /\
  copy_from_user (k_umem s) 0x2000 (xdma2_perf (k_engine s)) = (0%N, 5) /\
  r.1 = 0 /\
  k_umem r.2 !! 0x2000 = Some (mk_ucell true 6) /\
  busy r.2 = false.
Proof.
  intros s r.
  destruct (perf_test_full_copy (K := ref_kernel) 0x2000 s 5 eq_refl eq_refl)
    as (_ & Hback).
  split; [reflexivity | ]. split; [reflexivity | ].
  subst r. erewrite Hback; [ | vm_compute; discriminate | reflexivity].
  repeat split.
Defined.

(** Opening a memory-mapped host-to-device engine write-only with
    O_TRUNC. *)
Lemma open_derives_mode_from_truncate_witness :
  let s := ref_state DMA_TO_DEVICE false false 0 ∅ in
  let f := ref_file (Z.lor O_WRONLY O_TRUNC) in
  let r := char_sgdma_open ref_node f s in
  is_open s = false /\
  access_fits f (k_engine s) /\
  file_check_passes ref_node f (k_engine s) /\
  flags (k_engine r.2) = 2 /\
  non_incr_addr (k_engine r.2) = true /\
  eop_flush (k_engine r.2) = false.
Proof.
  intros s f r.
  assert (Hfit : access_fits f (k_engine s)) by (left; split; reflexivity).
  assert (Hchk : file_check_passes (K := ref_kernel) ref_node f (k_engine s))
    by (right; vm_compute; discriminate).
  destruct (open_derives_mode_from_truncate (K := ref_kernel) ref_node f s
              eq_refl Hfit Hchk) as (Hfl & _ & Hmm & _).
  destruct (Hmm eq_refl) as (Hnia & Heop).
  split; [reflexivity | ]. split; [exact Hfit | ]. split; [exact Hchk | ].
  split; [exact Hfl | ]. split; [exact Hnia | exact Heop].
Defined.

Lemma open_restricts_file_mode_witness :
  let s := ref_state DMA_TO_DEVICE false false 0 ∅ in
  let f := ref_file O_WRONLY in
  let r := char_sgdma_open ref_node f s in
  is_open s = false /\
  access_fits f (k_engine s) /\
  file_check_passes ref_node f (k_engine s) /\
  f_mode r.1.2 = 2 /\
  Z.testbit (f_mode r.1.2) 0 = false /\
  Z.testbit (f_mode r.1.2) 1 = true.
Proof.
  intros s f r.
  assert (Hfit : access_fits f (k_engine s)) by (left; split; reflexivity).
  assert (Hchk : file_check_passes (K := ref_kernel) ref_node f (k_engine s))
    by (right; vm_compute; discriminate).
  destruct (open_restricts_file_mode (K := ref_kernel) ref_node f s
              eq_refl Hfit Hchk) as (Hfile & _ & _ & Hbits).
  split; [reflexivity | ]. split; [exact Hfit | ]. split; [exact Hchk | ].
  subst r. rewrite Hfile. cbn [streaming ref_state ref_engine k_engine].
  split; [reflexivity | ].
  split; [rewrite Hbits; reflexivity | rewrite Hbits; reflexivity].
Defined.

(** Opening a host-to-device engine read-only. *)
Lemma failed_open_leaves_no_trace_witness :
  let s := ref_state DMA_TO_DEVICE false false 0 ∅ in
  let r := char_sgdma_open ref_node (ref_file O_RDONLY) s in
  is_open s = false /\
  (dir (k_engine s) = DMA_TO_DEVICE \/ dir (k_engine s) = DMA_FROM_DEVICE) /\
  r.1.1 < 0 /\
  r.2 = s.
Proof.
  intros s r.
  assert (Hd : dir (k_engine s) = DMA_TO_DEVICE \/
               dir (k_engine s) = DMA_FROM_DEVICE) by (left; reflexivity).
  destruct (failed_open_leaves_no_trace (K := ref_kernel) ref_node
              (ref_file O_RDONLY) s eq_refl Hd) as (Hsame & _).
  assert (Hneg : r.1.1 < 0) by (vm_compute; reflexivity).
  split; [reflexivity | ]. split; [exact Hd | ]. split; [exact Hneg | ].
  exact (Hsame Hneg).
Defined.

(** Opening and closing a busy engine. *)
Lemma open_and_close_keep_busy_bit_witness :
  let s := ref_state DMA_TO_DEVICE false false 1 ∅ in
  let f := ref_file O_WRONLY in
  XENGINE_BUSY_BIT <> XENGINE_OPEN_BIT /\
  (char_sgdma_open ref_node f s).1.1 = 0 /\
  busy (char_sgdma_open ref_node f s).2 = true /\
  busy (char_sgdma_close ref_node f s).2 = true.
Proof.
  intros s f.
  assert (Hne : @XENGINE_BUSY_BIT Z ref_kernel <> XENGINE_OPEN_BIT)
    by discriminate.
  destruct (open_and_close_keep_busy_bit (K := ref_kernel) ref_node f s Hne)
    as (Hopen & Hclose).
  split; [exact Hne | ]. split; [reflexivity | ].
  split; [rewrite Hopen | rewrite Hclose]; reflexivity.
Defined.

Lemma open_then_close_restores_flags_witness :
  let s := ref_state DMA_TO_DEVICE false false 1 ∅ in
  let f := ref_file (Z.lor O_WRONLY O_TRUNC) in
  let o := char_sgdma_open ref_node f s in
  let c := char_sgdma_close ref_node o.1.2 o.2 in
  is_open s = false /\
  access_fits f (k_engine s) /\
  file_check_passes ref_node f (k_engine s) /\
  0 <= xcdev_check (private_data o.1.2) /\
  flags (k_engine o.2) = 3 /\
  c.1 = 0 /\
  flags (k_engine c.2) = 1.
Proof.
  intros s f o c.
  assert (Hfit : access_fits f (k_engine s)) by (left; split; reflexivity).
  assert (Hfile : file_check_passes (K := ref_kernel) ref_node f (k_engine s))
    by (right; vm_compute; discriminate).
  assert (Hchk : 0 <= xcdev_check (private_data o.1.2))
    by (vm_compute; discriminate).
  destruct (open_then_close_restores_flags (K := ref_kernel) ref_node f s
              eq_refl Hfit Hfile Hchk) as (_ & Hrv & Hfl).
  split; [reflexivity | ]. split; [exact Hfit | ]. split; [exact Hfile | ].
  split; [exact Hchk | ]. split; [reflexivity | ].
  split; [exact Hrv | exact Hfl].
Defined.

(** A write of 64 bytes at position 100 after the address mode has been
    cleared and after it has been set. *)
Lemma addrmode_set_governs_cursor_witness :
  let f := ref_file O_WRONLY in
  let s0 := ref_state DMA_TO_DEVICE false true 0
              (<[0x3000 := mk_ucell false 0]> ∅) in
  let s1 := ref_state DMA_TO_DEVICE false false 0
              (<[0x3000 := mk_ucell false 1]> ∅) in
  @xfer_submit_keeps_mode Z ref_kernel /\
  (char_sgdma_read_write f 0x8000 64 100 (ioctl_do_addrmode_set 0x3000 s0).2).1.2
  = 100 + 64 /\
  (char_sgdma_read_write f 0x8000 64 100 (ioctl_do_addrmode_set 0x3000 s1).2).1.2
  = 100.
Proof.
  intros f s0 s1.
  split; [exact ref_xfer_submit_keeps_mode | ]. split.
  - apply (addrmode_set_governs_cursor (K := ref_kernel) 0x3000 f 0x8000 64
             100 s0 (mk_ucell false 0) ref_xfer_submit_keeps_mode);
      try reflexivity; vm_compute; discriminate.
  - apply (addrmode_set_governs_cursor (K := ref_kernel) 0x3000 f 0x8000 64
             100 s1 (mk_ucell false 1) ref_xfer_submit_keeps_mode);
      try reflexivity; vm_compute; discriminate.
Defined.

(** The same write after an open without and with O_TRUNC. *)
Lemma open_truncate_governs_cursor_witness :
  let s := ref_state DMA_TO_DEVICE false false 0 ∅ in
  let plain := char_sgdma_open ref_node (ref_file O_WRONLY) s in
  let trunc := char_sgdma_open ref_node (ref_file (Z.lor O_WRONLY O_TRUNC)) s in
  @xfer_submit_keeps_mode Z ref_kernel /\
  (char_sgdma_read_write plain.1.2 0x8000 64 100 plain.2).1.2 = 100 + 64 /\
  (char_sgdma_read_write trunc.1.2 0x8000 64 100 trunc.2).1.2 = 100.
Proof.
  intros s plain trunc.
  split; [exact ref_xfer_submit_keeps_mode | ]. split.
  - apply (open_truncate_governs_cursor (K := ref_kernel) ref_node
             (ref_file O_WRONLY) 0x8000 64 100 s ref_xfer_submit_keeps_mode);
      try reflexivity; try (left; split; reflexivity);
      vm_compute; discriminate.
  - apply (open_truncate_governs_cursor (K := ref_kernel) ref_node
             (ref_file (Z.lor O_WRONLY O_TRUNC)) 0x8000 64 100 s
             ref_xfer_submit_keeps_mode);
      try reflexivity; try (left; split; reflexivity);
      vm_compute; discriminate.
Defined.

(** After a write of 64 bytes from [0x8000] the engine still holds that
    pointer and count. *)
Lemma read_write_stages_and_keeps_parameters_witness :
  let s := ref_state DMA_TO_DEVICE false false 0 ∅ in
  let r := char_sgdma_read_write (ref_file O_WRONLY) 0x8000 64 100 s in
  busy s = false /\
  r.1.1 = 64 /\
  tp_buf (transfer_params (k_engine r.2)) = 0x8000 /\
  tp_length (transfer_params (k_engine r.2)) = 64.
Proof.
  intros s r.
  destruct (read_write_stages_and_keeps_parameters (K := ref_kernel)
              (ref_file O_WRONLY) 0x8000 64 100 s eq_refl)
    as (_ & _ & Hrv & _ & _ & Hkeep).
  split; [reflexivity | ]. split; [exact Hrv | ].
  apply Hkeep. reflexivity.
Defined.
